(** * ProductAI: the product/order store, the order and product routes, and
    the document generators, embedded from server/storage.ts and
    server/routes.ts.

    The server is untyped at run time: request bodies and the analysis
    reply are whatever JSON the peer sent, and the TypeScript annotations
    are erased.  Records are therefore JavaScript objects (finite maps from
    property names to values), not typed records, and every coercion the
    code relies on ([||], [??], template interpolation, property access on
    a nullish value) is written out. *)

From Stdlib Require Import ZArith Lia List Ascii String Bool Sorted.
From stdpp Require Import base option list strings gmap pretty.

Set Warnings "-register-all".
Local Open Scope Z_scope.

(** ** JavaScript values *)

(** What can sit in a property of a stored record or of a request body:
    [undefined], the JSON values, and the members a plain object inherits
    from [Object.prototype] (reachable through a computed key such as
    [scripts[lang]]).  Strings are byte strings (the UTF-8 text of the
    source).  Numbers are the integers: the only numbers the code computes
    with are the quantity (an integer column) and time values.  [VNum n]
    stands for the Number nearest to [n], which is what [JSON.parse] makes
    of the integer literal [n] ([n] itself up to 2^53); numbers with a
    fractional part are outside the model.  A [Date] is carried as its
    time value in milliseconds, which is all the code reads from it
    (through [getTime]). *)
Inductive Value : Type :=
| VUndefined
| VNull
| VBool (b : bool)
| VNum (n : Z)
| VStr (s : string)
| VArr (l : list Value)
| VObj (o : gmap string Value)
| VBuiltin (k : string).

Abbreviation Obj := (gmap string Value).

(** The only exception the modelled code can raise by itself. *)
Inductive JsError : Type := TypeError.

Inductive Outcome (A : Type) : Type :=
| Ok (a : A)
| Throw (e : JsError).
Arguments Ok {A} a.
Arguments Throw {A} e.

#[global] Instance outcome_ret : MRet Outcome := fun _ a => Ok a.
#[global] Instance outcome_bind : MBind Outcome := fun _ _ f m =>
  match m with
  | Ok a => f a
  | Throw e => Throw e
  end.

#[global] Instance outcome_fmap : FMap Outcome := fun _ _ f m =>
  match m with
  | Ok a => Ok (f a)
  | Throw e => Throw e
  end.

(** ToBoolean. *)
Definition truthy (v : Value) : bool :=
  match v with
  | VUndefined | VNull => false
  | VBool b => b
  | VNum n => negb (n =? 0)
  | VStr s => negb (String.eqb s "")
  | VArr _ | VObj _ | VBuiltin _ => true
  end.

(** [a || b] and [a ?? b]. *)
Definition js_or (a b : Value) : Value := if truthy a then a else b.

Definition nullish (v : Value) : bool :=
  match v with
  | VUndefined | VNull => true
  | _ => false
  end.

Definition js_coalesce (a b : Value) : Value := if nullish a then b else a.

(** The names every plain object inherits from [Object.prototype]. *)
Definition object_prototype_names : list string :=
  [ "constructor"; "__defineGetter__"; "__defineSetter__"; "hasOwnProperty";
    "__lookupGetter__"; "__lookupSetter__"; "isPrototypeOf";
    "propertyIsEnumerable"; "toString"; "valueOf"; "__proto__";
    "toLocaleString" ]%string.

Definition inherited (k : string) : bool :=
  bool_decide (k ∈ object_prototype_names).

(** An inherited member is the prototype object itself under
    [__proto__] and a native function otherwise: its [name] (none for the
    prototype object), its [length] and its text. *)
Definition builtin_name (k : string) : Value :=
  if String.eqb k "__proto__" then VUndefined
  else VStr (if String.eqb k "constructor" then "Object" else k).

Definition builtin_length (k : string) : Value :=
  if String.eqb k "__proto__" then VUndefined
  else if bool_decide (k ∈ ["toString"; "valueOf"; "toLocaleString"]) then VNum 0
  else if bool_decide (k ∈ ["__defineGetter__"; "__defineSetter__"]) then VNum 2
  else VNum 1.

Definition builtin_text (k : string) : string :=
  if String.eqb k "__proto__" then "[object Object]"
  else "function " +:+ (if String.eqb k "constructor" then "Object" else k)
       +:+ "() { [native code] }".

(** ** Number to text

    [Number::toString] on the integers: a Number is a binary64 double, an
    integer beyond 2^53 is first rounded to the nearest one, and the text
    is the decimal of fewest significant digits that reads back as that
    double, written out in full up to twenty-one digits and with an
    exponent beyond. *)

(** The Number nearest to a natural number [a]: [a] itself below 2^53,
    and otherwise [a] rounded to 53 significant bits, ties to even. *)
Definition nearest_double (a : Z) : Z :=
  if a <? 2 ^ 53 then a
  else
    let shift := Z.log2 a - 52 in
    let q := Z.shiftr a shift in
    let r := a - Z.shiftl q shift in
    let half := Z.shiftl 1 (shift - 1) in
    let q' := if (half <? r) || ((r =? half) && Z.odd q) then q + 1 else q in
    Z.shiftl q' shift.

(** The number of decimal digits of a natural number. *)
Definition decimal_digits (a : Z) : Z := Z.of_nat (String.length (pretty a)).

(** The natural number with [k] significant digits (and zeros after
    them) that the Number [v] of [D] digits is nearest to and that reads
    back as [v], if there is one. *)
Definition shortest_at (v D k : Z) : option Z :=
  let p := 10 ^ (D - k) in
  let lo := v / p * p in
  let hi := lo + p in
  match nearest_double lo =? v, nearest_double hi =? v with
  | true, true =>
      Some (if v - lo <? hi - v then lo
            else if hi - v <? v - lo then hi
            else if Z.even (v / p) then lo else hi)
  | true, false => Some lo
  | false, true => Some hi
  | false, false => None
  end.

(** The decimal of fewest significant digits that reads back as [v]:
    seventeen digits always suffice. *)
Fixpoint shortest_from (fuel : nat) (v D k : Z) : Z :=
  match fuel with
  | O => v
  | S fuel =>
      if D <=? k then v
      else match shortest_at v D k with
           | Some w => w
           | None => shortest_from fuel v D (k + 1)
           end
  end.

Definition shortest_decimal (v : Z) : Z :=
  shortest_from 17 v (decimal_digits v) 1.

Fixpoint drop_zeros (rev_digits : list ascii) : list ascii :=
  match rev_digits with
  | "0"%char :: rest => drop_zeros rest
  | _ => rev_digits
  end.

(** The significant digits of a positive decimal: its digits without the
    zeros that end it. *)
Definition significant (w : Z) : string :=
  string_of_list_ascii (rev (drop_zeros (rev (list_ascii_of_string (pretty w))))).

(** Number::toString on a natural number: all the digits up to twenty-one
    of them, and beyond that the significant digits with an exponent. *)
Definition natural_text (a : Z) : string :=
  if a <? 2 ^ 53 then pretty a
  else
    let v := nearest_double a in
    if 2 ^ 1024 <=? v then "Infinity"
    else
      let w := shortest_decimal v in
      let n := decimal_digits w in
      if n <=? 21 then pretty w
      else
        match significant w with
        | String d EmptyString => String d ("e+" +:+ pretty (n - 1))
        | String d rest => String d ("." +:+ rest +:+ "e+" +:+ pretty (n - 1))
        | EmptyString => pretty w
        end.

(** The text JavaScript writes for the integer [n], read as a Number. *)
Definition number_text (n : Z) : string :=
  if n <? 0 then "-" +:+ natural_text (- n) else natural_text n.

(** ToString, as a template literal applies it to an interpolated value.
    A JSON object is rendered by the inherited [toString] unless an own
    property shadows it: an own [toString] is never callable (it is JSON
    data), and the fallback [valueOf] returns no primitive, so the
    conversion throws.  An array is joined with commas, [null] and
    [undefined] elements rendering as the empty string.  A number is
    written as [Number::toString] writes it. *)
Fixpoint to_string (v : Value) : Outcome string :=
  match v with
  | VUndefined => Ok "undefined"
  | VNull => Ok "null"
  | VBool b => Ok (if b then "true" else "false")
  | VNum n => Ok (number_text n)
  | VStr s => Ok s
  | VArr l =>
      (fix join (l : list Value) : Outcome string :=
         match l with
         | [] => Ok ""
         | x :: rest =>
             s ← (if nullish x then Ok "" else to_string x);
             match rest with
             | [] => Ok s
             | _ :: _ => r ← join rest; Ok (s +:+ "," +:+ r)
             end
         end) l
  | VObj o =>
      match o !! "toString" with
      | Some _ => Throw TypeError
      | None => Ok "[object Object]"
      end
  | VBuiltin k => Ok (builtin_text k)
  end.

(** [o.k] for a key [k] that [Object.prototype] does not define (all the
    property names the code spells out are such keys). *)
Definition get (o : Obj) (k : string) : Value := default VUndefined (o !! k).

(** [v.k] on an arbitrary value, for a key [k] that no prototype defines:
    reading a property of [null] or [undefined] throws; a primitive or an
    array has no such property; a function has its [name]. *)
Definition get_prop (v : Value) (k : string) : Outcome Value :=
  match v with
  | VUndefined | VNull => Throw TypeError
  | VObj o => Ok (get o k)
  | VBuiltin f => Ok (if String.eqb k "name" then builtin_name f else VUndefined)
  | _ => Ok VUndefined
  end.

(** [o[k]] on a plain object for a computed key: own properties first,
    then the inherited members. *)
Definition get_computed (o : Obj) (k : string) : Value :=
  match o !! k with
  | Some v => v
  | None => if inherited k then VBuiltin k else VUndefined
  end.

(** [{...target, ...src}]: own properties of [src] override. *)
Definition spread (target src : Obj) : Obj := src ∪ target.

(** [{ ar: [], en: [], fr: [] }] *)
Definition empty_lists : Value :=
  VObj (<["ar" := VArr []]> (<["en" := VArr []]> (<["fr" := VArr []]> ∅))).

(** ** The JavaScript [Map] of the in-memory store

    Entries are kept in insertion order, which is the order [values()]
    yields them.  A [Map] holds a key once, and [set] keeps it so; the
    lemmas below hold for every list of entries all the same. *)
Module JsMap.

Definition t : Type := list (string * Obj).

Definition empty : t := [].

Fixpoint get (m : t) (k : string) : option Obj :=
  match m with
  | [] => None
  | (k', v) :: rest => if String.eqb k' k then Some v else get rest k
  end.

Definition has (m : t) (k : string) : bool :=
  match get m k with Some _ => true | None => false end.

(** [set] overwrites the value of a present key where it stands and
    appends an absent one. *)
Fixpoint set (m : t) (k : string) (v : Obj) : t :=
  match m with
  | [] => [(k, v)]
  | (k', v') :: rest =>
      if String.eqb k' k then (k', v) :: rest else (k', v') :: set rest k v
  end.

Definition remove (m : t) (k : string) : t :=
  List.filter (fun e => negb (String.eqb (fst e) k)) m.

(** [delete] answers whether the key was present. *)
Definition delete (m : t) (k : string) : t * bool := (remove m k, has m k).

Definition values (m : t) : list Obj := map snd m.

End JsMap.

(** ** MemStorage (server/storage.ts)

    The store owns two maps.  [randomUUID()] and [new Date()] are inputs of
    the model: the fresh identifier [id] and the clock reading [now] (a
    time value in milliseconds) are passed to the operation that asks for
    them.  Each operation runs to completion without awaiting, so it is a
    function from store to store. *)
Record Store : Type := mkStore {
  products : JsMap.t;
  orders : JsMap.t
}.

Definition emptyStore : Store := mkStore JsMap.empty JsMap.empty.

Definition getProduct (st : Store) (id : string) : option Obj :=
  JsMap.get (products st) id.

Definition createProduct (st : Store) (id : string) (now : Z)
    (insertProduct : Obj) : Store * Obj :=
  let product : Obj :=
    <["createdAt" := VNum now]>
    (<["features" := js_or (get insertProduct "features") empty_lists]>
    (<["benefits" := js_or (get insertProduct "benefits") empty_lists]>
    (<["category" := js_coalesce (get insertProduct "category") VNull]>
    (<["price" := js_coalesce (get insertProduct "price") VNull]>
    (<["id" := VStr id]> insertProduct))))) in
  (mkStore (JsMap.set (products st) id product) (orders st), product).

Definition updateProduct (st : Store) (id : string) (updates : Obj)
    : Store * option Obj :=
  match JsMap.get (products st) id with
  | None => (st, None)
  | Some product =>
      let updated : Obj :=
        <["features" := js_or (js_or (get updates "features")
                                     (get product "features")) empty_lists]>
        (<["benefits" := js_or (js_or (get updates "benefits")
                                      (get product "benefits")) empty_lists]>
        (spread product updates)) in
      (mkStore (JsMap.set (products st) id updated) (orders st), Some updated)
  end.

Definition deleteProduct (st : Store) (id : string) : Store * bool :=
  let (m, existed) := JsMap.delete (products st) id in
  (mkStore m (orders st), existed).

Definition getOrder (st : Store) (id : string) : option Obj :=
  JsMap.get (orders st) id.

Definition getOrdersByProduct (st : Store) (productId : string) : list Obj :=
  List.filter
    (fun order =>
       match get order "productId" with
       | VStr a => String.eqb a productId
       | _ => false
       end)
    (JsMap.values (orders st)).

Definition createOrder (st : Store) (id : string) (now : Z)
    (insertOrder : Obj) : Store * Obj :=
  let order : Obj :=
    <["createdAt" := VNum now]>
    (<["confirmationScript" := js_or (get insertOrder "confirmationScript") VNull]>
    (<["notes" := js_or (get insertOrder "notes") VNull]>
    (<["customerCity" := js_or (get insertOrder "customerCity") VNull]>
    (<["customerAddress" := js_or (get insertOrder "customerAddress") VNull]>
    (<["language" := js_or (get insertOrder "language") (VStr "ar")]>
    (<["quantity" := js_or (get insertOrder "quantity") (VNum 1)]>
    (<["status" := js_or (get insertOrder "status") (VStr "pending")]>
    (<["id" := VStr id]> insertOrder)))))))) in
  (mkStore (products st) (JsMap.set (orders st) id order), order).

Definition updateOrder (st : Store) (id : string) (updates : Obj)
    : Store * option Obj :=
  match JsMap.get (orders st) id with
  | None => (st, None)
  | Some order =>
      let updated : Obj := spread order updates in
      (mkStore (products st) (JsMap.set (orders st) id updated), Some updated)
  end.

Definition deleteOrder (st : Store) (id : string) : Store * bool :=
  let (m, existed) := JsMap.delete (orders st) id in
  (mkStore (products st) m, existed).

(** ** Strings: [trim], [includes], lines *)

(** The white space and line terminators [String.prototype.trim] strips,
    read off the UTF-8 bytes: the one-byte TAB, LF, VT, FF, CR and SP, and
    the encodings of U+00A0, U+1680, U+2000..U+200A, U+2028, U+2029,
    U+202F, U+205F, U+3000 and U+FEFF. *)
Definition ascii_space (c : ascii) : bool :=
  let n := nat_of_ascii c in
  ((9 <=? n) && (n <=? 13) || (n =? 32))%nat.

Definition two_byte_space (c d : ascii) : bool :=
  ((nat_of_ascii c =? 194) && (nat_of_ascii d =? 160))%nat.

Definition three_byte_space (c d e : ascii) : bool :=
  let x := nat_of_ascii c in
  let y := nat_of_ascii d in
  let z := nat_of_ascii e in
  ((x =? 225) && (y =? 154) && (z =? 128)
   || (x =? 226) && (y =? 128)
      && ((128 <=? z) && (z <=? 138) || (z =? 168) || (z =? 169) || (z =? 175))
   || (x =? 226) && (y =? 129) && (z =? 159)
   || (x =? 227) && (y =? 128) && (z =? 128)
   || (x =? 239) && (y =? 187) && (z =? 191))%nat.

(** [trimStart] drops white-space code points from the head for as long
    as there is one. *)
Fixpoint trimStart (s : string) : string :=
  match s with
  | EmptyString => EmptyString
  | String c r =>
      if ascii_space c then trimStart r
      else
        match r with
        | EmptyString => s
        | String d r1 =>
            if two_byte_space c d then trimStart r1
            else
              match r1 with
              | EmptyString => s
              | String e r2 =>
                  if three_byte_space c d e then trimStart r2 else s
              end
        end
  end.

(** The text consists of white-space code points only. *)
Fixpoint all_space (s : string) : bool :=
  match s with
  | EmptyString => true
  | String c r =>
      if ascii_space c then all_space r
      else
        match r with
        | EmptyString => false
        | String d r1 =>
            if two_byte_space c d then all_space r1
            else
              match r1 with
              | EmptyString => false
              | String e r2 =>
                  if three_byte_space c d e then all_space r2 else false
              end
        end
  end.

(** [trimEnd] cuts the text where nothing but white space follows. *)
Fixpoint trimEnd (s : string) : string :=
  match s with
  | EmptyString => EmptyString
  | String c r => if all_space s then EmptyString else String c (trimEnd r)
  end.

Definition trim (s : string) : string := trimEnd (trimStart s).

(** [s.includes(needle)] *)
Fixpoint includes (s needle : string) : bool :=
  String.prefix needle s
  || match s with
     | EmptyString => false
     | String _ r => includes r needle
     end.

Fixpoint char_in (c : ascii) (s : string) : bool :=
  match s with
  | EmptyString => false
  | String d r => Ascii.eqb c d || char_in c r
  end.

Definition newline : ascii := ascii_of_nat 10.

(** The lines of a text (what [split] at the line feed yields). *)
Fixpoint lines (s : string) : list string :=
  match s with
  | EmptyString => [EmptyString]
  | String c r =>
      if Ascii.eqb c newline then EmptyString :: lines r
      else
        match lines r with
        | l :: ls => String c l :: ls
        | [] => [String c EmptyString]
        end
  end.

(** ** generateConfirmationScript (server/routes.ts)

    The customer object the order route builds:
    [{ customerName, customerPhone, customerAddress, customerCity, quantity }]. *)
Record Customer : Type := mkCustomer {
  customerName : Value;
  customerPhone : Value;
  customerAddress : Value;
  customerCity : Value;
  quantity : Value
}.

(** [${v ? `label${v}` : ""}] *)
Definition optional_line (label : string) (v : Value) : Outcome string :=
  if truthy v then s ← to_string v; Ok (label +:+ s) else Ok "".

(** Every template literal opens with a line feed; the script templates
    close with a line feed and four spaces. *)
Definition template_open : string := String newline EmptyString.

Definition script_close : string := String newline "    ".

(** The text of the [ar] template between the line feed that opens the
    literal and the line feed and indentation that close it. *)
Definition script_ar_text (name pname qty price desc city address : string)
    : string :=
  "السلام عليكم " +:+ name +:+ "،

أشكرك على اهتمامك بمنتجنا.

تفاصيل طلبك:
المنتج: " +:+ pname +:+ "
الكمية: " +:+ qty +:+ "
" +:+ price +:+ "

وصف المنتج:
" +:+ desc +:+ "

" +:+ city +:+ "
" +:+ address +:+ "

هل تؤكد هذا الطلب؟

نحن في انتظار ردك.
شكراً لثقتكم بنا.".

(** The [ar] entry of [scripts]. *)
Definition script_ar (product : Obj) (customer : Customer) : Outcome string :=
  name ← to_string (customerName customer);
  pname ← to_string (get product "name");
  qty ← to_string (quantity customer);
  price ← optional_line "السعر: " (get product "price");
  description ← get_prop (get product "descriptions") "ar";
  desc ← to_string description;
  city ← optional_line "المدينة: " (customerCity customer);
  address ← optional_line "العنوان: " (customerAddress customer);
  Ok (trim (template_open
            +:+ script_ar_text name pname qty price desc city address
            +:+ script_close)).

(** The text of the [en] template between the line feed that opens the
    literal and the line feed and indentation that close it. *)
Definition script_en_text (name pname qty price desc city address : string)
    : string :=
  "Hello " +:+ name +:+ ",

Thank you for your interest in our product.

Order Details:
Product: " +:+ pname +:+ "
Quantity: " +:+ qty +:+ "
" +:+ price +:+ "

Product Description:
" +:+ desc +:+ "

" +:+ city +:+ "
" +:+ address +:+ "

Do you confirm this order?

We look forward to your response.
Thank you for your trust.".

(** The [en] entry of [scripts]. *)
Definition script_en (product : Obj) (customer : Customer) : Outcome string :=
  name ← to_string (customerName customer);
  pname ← to_string (get product "name");
  qty ← to_string (quantity customer);
  price ← optional_line "Price: " (get product "price");
  description ← get_prop (get product "descriptions") "en";
  desc ← to_string description;
  city ← optional_line "City: " (customerCity customer);
  address ← optional_line "Address: " (customerAddress customer);
  Ok (trim (template_open
            +:+ script_en_text name pname qty price desc city address
            +:+ script_close)).

(** The text of the [fr] template between the line feed that opens the
    literal and the line feed and indentation that close it. *)
Definition script_fr_text (name pname qty price desc city address : string)
    : string :=
  "Bonjour " +:+ name +:+ ",

Merci pour votre intérêt pour notre produit.

Détails de la commande:
Produit: " +:+ pname +:+ "
Quantité: " +:+ qty +:+ "
" +:+ price +:+ "

Description du produit:
" +:+ desc +:+ "

" +:+ city +:+ "
" +:+ address +:+ "

Confirmez-vous cette commande?

Nous attendons votre réponse.
Merci pour votre confiance.".

(** The [fr] entry of [scripts]. *)
Definition script_fr (product : Obj) (customer : Customer) : Outcome string :=
  name ← to_string (customerName customer);
  pname ← to_string (get product "name");
  qty ← to_string (quantity customer);
  price ← optional_line "Prix: " (get product "price");
  description ← get_prop (get product "descriptions") "fr";
  desc ← to_string description;
  city ← optional_line "Ville: " (customerCity customer);
  address ← optional_line "Adresse: " (customerAddress customer);
  Ok (trim (template_open
            +:+ script_fr_text name pname qty price desc city address
            +:+ script_close)).

(** All three entries are built (and may throw) before [scripts[lang]] is
    read; the key is the string the language converts to. *)
Definition generateConfirmationScript (product : Obj) (customer : Customer)
    (lang : Value) : Outcome Value :=
  ar ← script_ar product customer;
  en ← script_en product customer;
  fr ← script_fr product customer;
  key ← to_string lang;
  let scripts : Obj :=
    <["fr" := VStr fr]> (<["en" := VStr en]> (<["ar" := VStr ar]> ∅)) in
  Ok (get_computed scripts key).

(** ** Listing: getProducts and getOrders (server/storage.ts)

    [Array.from(map.values()).sort((a, b) => time(b) - time(a))] with
    [time(x) = new Date(x.createdAt).getTime()]. *)
(** The time values a [Date] can hold: at most 8.64e15 ms from the epoch
    in either direction. *)
Definition time_valid (t : Z) : bool := Z.abs t <=? 8640000000000000.

Section Listing.

(** [Date.parse], the host's reading of a date string ([None] is NaN):
    it is consulted only when a [createdAt] has been overwritten with
    something that is not a time value. *)
Variable date_parse : string -> option Z.

(** [new Date(v).getTime()]: a number that is no time value is an
    invalid date (NaN). *)
Definition time_value (v : Value) : Outcome (option Z) :=
  match v with
  | VNum n => Ok (if time_valid n then Some n else None)
  | VUndefined => Ok None
  | VNull => Ok (Some 0)
  | VBool b => Ok (Some (Z.b2z b))
  | _ => s ← to_string v; Ok (date_parse s)
  end.

(** The comparator; [None] is NaN. *)
Definition newest_first (a b : Obj) : Outcome (option Z) :=
  tb ← time_value (get b "createdAt");
  ta ← time_value (get a "createdAt");
  Ok (match tb, ta with
      | Some x, Some y => Some (x - y)
      | _, _ => None
      end).

(** [sort] is stable and reads a NaN from the comparator as zero.  It is
    modelled by a stable insertion sort: under a consistent comparator,
    which this one is while every [createdAt] is a valid time value,
    every stable sort returns the same array.  Where a [createdAt] has
    been overwritten with something that is no time value the comparator
    is not consistent, the array the engine returns depends on its
    algorithm, and the model does not follow it.  A throwing comparator
    aborts the sort. *)
Fixpoint insert_sorted (x : Obj) (l : list Obj) : Outcome (list Obj) :=
  match l with
  | [] => Ok [x]
  | y :: rest =>
      c ← newest_first x y;
      if default 0 c <=? 0 then Ok (x :: y :: rest)
      else rest' ← insert_sorted x rest; Ok (y :: rest')
  end.

Fixpoint sort_newest_first (l : list Obj) : Outcome (list Obj) :=
  match l with
  | [] => Ok []
  | x :: rest => sorted ← sort_newest_first rest; insert_sorted x sorted
  end.

Definition getProducts (st : Store) : Outcome (list Obj) :=
  sort_newest_first (JsMap.values (products st)).

Definition getOrders (st : Store) : Outcome (list Obj) :=
  sort_newest_first (JsMap.values (orders st)).

End Listing.

(** ** The routes (server/routes.ts)

    A handler answers with [res.json(value)] or with an error status; the
    text of error messages is not modelled.  [req.body] is the JSON object
    the body parser produced. *)
Inductive Response : Type :=
| Json (payload : Value)
| Error (code : nat).

(** [storage.getProduct(productId)] with a key taken from a request body:
    only a string can equal a key of the map. *)
Definition lookupProduct (st : Store) (productId : Value) : option Obj :=
  match productId with
  | VStr id => getProduct st id
  | _ => None
  end.

(** The tail of POST /api/products/analyze, from the parsed reply
    [analysis] on: [imageUrl] is the upload path of the stored file. *)
Definition analyzeProduct (st : Store) (id : string) (now : Z)
    (imageUrl : string) (analysis : Value) : Store * Response :=
  let input : Outcome Obj :=
    name ← get_prop analysis "name";
    descriptions ← get_prop analysis "descriptions";
    benefits ← get_prop analysis "benefits";
    features ← get_prop analysis "features";
    price ← get_prop analysis "price";
    category ← get_prop analysis "category";
    Ok (<["category" := js_or category VNull]>
        (<["price" := js_or price VNull]>
        (<["features" := js_or features empty_lists]>
        (<["benefits" := js_or benefits empty_lists]>
        (<["descriptions" := descriptions]>
        (<["imageUrl" := VStr imageUrl]>
        (<["name" := js_or name (VStr "Unnamed Product")]> ∅))))))) in
  match input with
  | Ok insertProduct =>
      let (st', product) := createProduct st id now insertProduct in
      (st', Json (VObj product))
  | Throw _ => (st, Error 500)
  end.

(** PATCH /api/products/:id *)
Definition patchProduct (st : Store) (id : string) (body : Obj)
    : Store * Response :=
  match updateProduct st id body with
  | (st', Some product) => (st', Json (VObj product))
  | (st', None) => (st', Error 404)
  end.

(** POST /api/orders *)
Definition postOrder (st : Store) (id : string) (now : Z) (body : Obj)
    : Store * Response :=
  let productId := get body "productId" in
  let customerName := get body "customerName" in
  let customerPhone := get body "customerPhone" in
  let customerAddress := get body "customerAddress" in
  let customerCity := get body "customerCity" in
  let notes := get body "notes" in
  let quantity := get body "quantity" in
  let language := get body "language" in
  if negb (truthy productId) || negb (truthy customerName)
     || negb (truthy customerPhone)
  then (st, Error 400)
  else
    match lookupProduct st productId with
    | None => (st, Error 404)
    | Some product =>
        match generateConfirmationScript product
                (mkCustomer customerName customerPhone customerAddress
                            customerCity (js_or quantity (VNum 1)))
                (js_or language (VStr "ar")) with
        | Throw _ => (st, Error 500)
        | Ok confirmationScript =>
            let (st', order) :=
              createOrder st id now
                (<["confirmationScript" := confirmationScript]>
                (<["language" := js_or language (VStr "ar")]>
                (<["status" := VStr "pending"]>
                (<["quantity" := js_or quantity (VNum 1)]>
                (<["notes" := notes]>
                (<["customerCity" := customerCity]>
                (<["customerAddress" := customerAddress]>
                (<["customerPhone" := customerPhone]>
                (<["customerName" := customerName]>
                (<["productId" := productId]> ∅)))))))))) in
            (st', Json (VObj order))
        end
    end.

(** PATCH /api/orders/:id *)
Definition patchOrder (st : Store) (id : string) (body : Obj)
    : Store * Response :=
  match updateOrder st id body with
  | (st', Some order) => (st', Json (VObj order))
  | (st', None) => (st', Error 404)
  end.

(** ** generateProductPDF (server/routes.ts) *)

(** The declared type [Language] of shared/schema.ts.  The two document
    generators are modelled on it, as they are declared; the pdf routes
    hand them the query string unchecked, and a language outside the
    type is outside the model. *)
Inductive Language : Type := Ar | En | Fr.

Definition lang_code (lang : Language) : string :=
  match lang with
  | Ar => "ar"
  | En => "en"
  | Fr => "fr"
  end.

Record Labels : Type := mkLabels {
  l_product : string;
  l_name : string;
  l_price : string;
  l_category : string;
  l_description : string;
  l_benefits : string;
  l_features : string
}.

Definition labels (lang : Language) : Labels :=
  match lang with
  | Ar => mkLabels "تفاصيل المنتج" "الاسم" "السعر" "الفئة" "الوصف" "الفوائد" "الميزات"
  | En => mkLabels "Product Details" "Name" "Price" "Category" "Description" "Benefits" "Features"
  | Fr => mkLabels "Détails du Produit" "Nom" "Prix" "Catégorie" "Description" "Avantages" "Caractéristiques"
  end.

(** The double quote of the HTML attributes. *)
Definition dq : string := String (ascii_of_nat 34) EmptyString.

Section Documents.

(** [ToNumber(s) > 0] on a string, the host's reading of a numeric
    string: it is consulted only when a list of the product has been
    replaced by an object that carries its own [length]. *)
Variable string_gt_zero : string -> bool.

(** [v > 0] *)
Definition js_gt_zero (v : Value) : Outcome bool :=
  match v with
  | VUndefined | VNull => Ok false
  | VBool b => Ok b
  | VNum n => Ok (0 <? n)
  | VStr s => Ok (string_gt_zero s)
  | _ => s ← to_string v; Ok (string_gt_zero s)
  end.

(** [v?.[lang]] for a language code [lang]. *)
Definition lang_entry (v : Value) (lang : string) : Value :=
  match v with
  | VObj o => get o lang
  | _ => VUndefined
  end.

(** [items?.length] *)
Definition optional_length (items : Value) : Value :=
  match items with
  | VStr s => VNum (Z.of_nat (String.length s))
  | VArr l => VNum (Z.of_nat (List.length l))
  | VObj o => get o "length"
  | VBuiltin f => builtin_length f
  | _ => VUndefined
  end.

(** [items.map((x) => `<li>${x}</li>`).join("")]: only an array has a
    callable [map]. *)
Definition list_items (items : Value) : Outcome string :=
  match items with
  | VArr l =>
      (fix go (l : list Value) : Outcome string :=
         match l with
         | [] => Ok ""
         | x :: rest =>
             s ← to_string x;
             r ← go rest;
             Ok ("<li>" +:+ s +:+ "</li>" +:+ r)
         end) l
  | _ => Throw TypeError
  end.

(** [benefitsHTML] and [featuresHTML] *)
Definition list_section (title : string) (v : Value) (lang : Language)
    : Outcome string :=
  let entry := lang_entry v (lang_code lang) in
  shown ← js_gt_zero (optional_length entry);
  if shown : bool then
    items ← list_items entry;
    Ok ("
  <div class=" +:+ dq +:+ "section" +:+ dq +:+ ">
    <h2>" +:+ title +:+ "</h2>
    <ul class=" +:+ dq +:+ "list" +:+ dq +:+ ">
      " +:+ items +:+ "
    </ul>
  </div>")
  else Ok "".

(** The price and category rows. *)
Definition detail_row (label : string) (v : Value) : Outcome string :=
  if truthy v then
    text ← to_string v;
    Ok ("
    <div class=" +:+ dq +:+ "detail-row" +:+ dq +:+ ">
      <span class=" +:+ dq +:+ "detail-label" +:+ dq +:+ ">" +:+ label +:+ ":</span>
      <span class=" +:+ dq +:+ "detail-value" +:+ dq +:+ ">" +:+ text +:+ "</span>
    </div>")
  else Ok "".

(** The template of the document, between the line feed that opens the
    literal and the line feed and indentation that close it, cut at the
    line break before the footer's date line: [document_head], a line
    feed, [document_tail]. *)
Definition document_head (t : Labels) (dir code pname image price category
    desc benefitsHTML featuresHTML : string) : string :=
  "<!DOCTYPE html>
<html dir=" +:+ dq +:+ dir +:+ dq +:+ " lang=" +:+ dq +:+ code +:+ dq +:+ ">
<head>
  <meta charset=" +:+ dq +:+ "UTF-8" +:+ dq +:+ ">
  <title>" +:+ pname +:+ "</title>
  <style>
    * { margin: 0; padding: 0; box-sizing: border-box; }
    body { font-family: Arial, sans-serif; padding: 40px; max-width: 800px; margin: 0 auto; background: #fff; color: #333; line-height: 1.6; }
    .header { text-align: center; margin-bottom: 30px; padding-bottom: 20px; border-bottom: 2px solid #eee; }
    .header h1 { font-size: 28px; color: #1a56db; margin-bottom: 10px; font-weight: bold; }
    .product-image { text-align: center; margin-bottom: 30px; }
    .product-image img { max-width: 400px; max-height: 400px; object-fit: cover; border-radius: 8px; box-shadow: 0 4px 6px rgba(0,0,0,0.1); }
    .details { margin-bottom: 30px; }
    .detail-row { display: flex; margin-bottom: 15px; padding: 10px; background: #f9fafb; border-radius: 6px; }
    .detail-label { font-weight: bold; min-width: 120px; color: #6b7280; }
    .detail-value { flex: 1; }
    .description { margin-top: 20px; padding: 20px; background: #f0f9ff; border-radius: 8px; line-height: 1.8; border-left: 4px solid #1a56db; }
    .section { margin-top: 30px; padding: 20px; background: #fafafa; border-radius: 8px; }
    .section h2 { font-size: 20px; color: #1a56db; margin-bottom: 15px; border-bottom: 2px solid #e5e7eb; padding-bottom: 10px; }
    .list { margin-left: 20px; }
    .list li { margin-bottom: 12px; line-height: 1.6; }
    .footer { text-align: center; margin-top: 40px; padding-top: 20px; border-top: 2px solid #eee; color: #9ca3af; font-size: 12px; }
    @media print { body { padding: 20px; } }
  </style>
</head>
<body>
  <div class=" +:+ dq +:+ "header" +:+ dq +:+ ">
    <h1>" +:+ l_product t +:+ "</h1>
  </div>
  <div class=" +:+ dq +:+ "product-image" +:+ dq +:+ ">
    <img src=" +:+ dq +:+ image +:+ dq +:+ " alt=" +:+ dq +:+ pname +:+ dq +:+ ">
  </div>
  <div class=" +:+ dq +:+ "details" +:+ dq +:+ ">
    <div class=" +:+ dq +:+ "detail-row" +:+ dq +:+ ">
      <span class=" +:+ dq +:+ "detail-label" +:+ dq +:+ ">" +:+ l_name t +:+ ":</span>
      <span class=" +:+ dq +:+ "detail-value" +:+ dq +:+ ">" +:+ pname +:+ "</span>
    </div>
    " +:+ price +:+ "
    " +:+ category +:+ "
  </div>
  <div class=" +:+ dq +:+ "description" +:+ dq +:+ ">
    <strong>" +:+ l_description t +:+ ":</strong>
    <p style=" +:+ dq +:+ "margin-top: 10px;" +:+ dq +:+ ">" +:+ desc +:+ "</p>
  </div>
  " +:+ benefitsHTML +:+ "
  " +:+ featuresHTML +:+ "
  <div class=" +:+ dq +:+ "footer" +:+ dq +:+ ">".

Definition document_tail (today : string) : string :=
  "    <p>ProductAI - " +:+ today +:+ "</p>
  </div>
</body>
</html>".

Definition document_close : string := String newline "  ".

(** [today] is the text [new Date().toLocaleDateString(locale)] yields
    when the document is generated. *)
Definition generateProductPDF (product : Obj) (lang : Language)
    (today : string) : Outcome string :=
  let t := labels lang in
  let dir := match lang with Ar => "rtl" | _ => "ltr" end in
  benefitsHTML ← list_section (l_benefits t) (get product "benefits") lang;
  featuresHTML ← list_section (l_features t) (get product "features") lang;
  pname ← to_string (get product "name");
  image ← to_string (get product "imageUrl");
  price ← detail_row (l_price t) (get product "price");
  category ← detail_row (l_category t) (get product "category");
  description ← get_prop (get product "descriptions") (lang_code lang);
  desc ← to_string description;
  Ok (trim (template_open
            +:+ document_head t dir (lang_code lang) pname image price
                  category desc benefitsHTML featuresHTML
            +:+ String newline (document_tail today)
            +:+ document_close)).

End Documents.

(** ** Histories of calls on the product map *)
Inductive ProductCall : Type :=
| CallCreate (id : string) (now : Z) (insertProduct : Obj)
| CallUpdate (id : string) (updates : Obj)
| CallDelete (id : string).

Definition call (st : Store) (c : ProductCall) : Store :=
  match c with
  | CallCreate id now insertProduct => fst (createProduct st id now insertProduct)
  | CallUpdate id updates => fst (updateProduct st id updates)
  | CallDelete id => fst (deleteProduct st id)
  end.

Definition replay (history : list ProductCall) (st : Store) : Store :=
  fold_left call history st.

Definition creates (id : string) (c : ProductCall) : bool :=
  match c with
  | CallCreate id' _ _ => String.eqb id' id
  | _ => false
  end.

Definition never_created (id : string) (history : list ProductCall) : bool :=
  forallb (fun c => negb (creates id c)) history.

Definition deletes (id : string) (c : ProductCall) : bool :=
  match c with
  | CallDelete id' => String.eqb id' id
  | _ => false
  end.

Definition never_deleted (id : string) (history : list ProductCall) : bool :=
  forallb (fun c => negb (deletes id c)) history.





(** The two readings of a stored product's lists: never an empty value,
    and an object. *)
Definition lists_kept (p : Obj) : Prop :=
  truthy (get p "benefits") = true ∧ truthy (get p "features") = true.


(** ** Auxiliary readings of texts used by the proofs *)

(** A byte that cannot begin a white-space code point. *)
Definition no_space_lead (c : ascii) : bool :=
  let n := nat_of_ascii c in
  (negb (ascii_space c)
   && negb ((n =? 194) || (n =? 225) || (n =? 226) || (n =? 227) || (n =? 239)))%nat.

(** A one-byte character that is not white space: it is no part of any
    white-space code point. *)
Definition anchor (c : ascii) : bool :=
  ((nat_of_ascii c <? 128) && negb (ascii_space c))%nat.

(** The text ends with an [anchor]. *)
Fixpoint ends_anchor (s : string) : bool :=
  match s with
  | EmptyString => false
  | String c EmptyString => anchor c
  | String _ r => ends_anchor r
  end.

(** The request names a language the script table has an entry for: one
    of the three codes, or nothing (an empty value), which the route
    replaces by [ar]. *)
Definition language_supported (language : Value) : bool :=
  match js_or language (VStr "ar") with
  | VStr k => String.eqb k "ar" || String.eqb k "en" || String.eqb k "fr"
  | _ => false
  end.

(** ** Sample data *)

(** A product as the analysis route stores it. *)
Definition chair : Obj :=
  <["category" := VStr "Furniture"]>
  (<["price" := VStr "$50"]>
  (<["features" := empty_lists]>
  (<["benefits" := empty_lists]>
  (<["descriptions" :=
       VObj (<["fr" := VStr "Une chaise en bois."]>
            (<["en" := VStr "A wooden chair."]>
            (<["ar" := VStr "كرسي خشبي."]> ∅)))]>
  (<["imageUrl" := VStr "/uploads/chair.png"]>
  (<["name" := VStr "Chair"]> ∅)))))).

Definition chair_store : Store := fst (createProduct emptyStore "p1" 1000 chair).

(** Ali's order of two chairs, with no address and no city. *)
Definition ali (phone : Value) : Customer :=
  mkCustomer (VStr "Ali") phone VUndefined VUndefined (VNum 2).

(** The body of an order request for the chair, in the given language. *)
Definition order_request (language : Value) : Obj :=
  <["language" := language]>
  (<["quantity" := VNum 2]>
  (<["customerPhone" := VStr "555"]>
  (<["customerName" := VStr "Ali"]>
  (<["productId" := VStr "p1"]> ∅)))).

(** ** Histories of product requests *)










(** The object a route answered with, if it answered with one. *)
Definition answered (r : Response) : option Obj :=
  match r with
  | Json (VObj o) => Some o
  | _ => None
  end.

(** The option holds a value. *)
Definition is_some {A : Type} (o : option A) : bool :=
  match o with
  | Some _ => true
  | None => false
  end.

(** ** Readings of listings *)

(** The time value of a record whose [createdAt] is one. *)
Definition stamp (p : Obj) : option Z :=
  match get p "createdAt" with
  | VNum t => if time_valid t then Some t else None
  | _ => None
  end.

(** [a] was created at the same time as [b] or later. *)
Definition not_older (a b : Obj) : Prop :=
  ∃ ta tb : Z, stamp a = Some ta ∧ stamp b = Some tb ∧ tb <= ta.

(** A call that creates a product, at a clock reading that is a time
    value. *)
Definition is_creation (c : ProductCall) : bool :=
  match c with
  | CallCreate _ now _ => time_valid now
  | _ => false
  end.

(** The record createProduct builds from an input. *)
Definition created (id : string) (now : Z) (insertProduct : Obj) : Obj :=
  snd (createProduct emptyStore id now insertProduct).

(** The names of the listed records, in order. *)
Definition names_of (listing : Outcome (list Obj)) : list Value :=
  match listing with
  | Ok l => map (λ p : Obj, get p "name") l
  | Throw _ => []
  end.

(** Three inputs that differ in their names. *)
Definition named (name : string) : Obj :=
  <["descriptions" := get chair "descriptions"]>
  (<["imageUrl" := VStr "/uploads/x.png"]> (<["name" := VStr name]> ∅)).

(** ** Comparing documents apart from the generation date *)

(** The lines of a document without the fourth line from the end, the
    footer line that carries the generation date. *)
Definition without_date_line (html : string) : list string :=
  match rev (lines html) with
  | l1 :: l2 :: l3 :: _ :: before => rev before ++ [l3; l2; l1]
  | _ => lines html
  end.

(** ** Users (server/storage.ts)

    The third map of MemStorage, which no product or order operation
    reads or writes; [id] is the identifier [randomUUID()] returned. *)
Definition getUser (users : JsMap.t) (id : string) : option Obj :=
  JsMap.get users id.

(** [user.username === username] for a text [username]. *)
Definition has_username (username : string) (user : Obj) : bool :=
  match get user "username" with
  | VStr s => String.eqb s username
  | _ => false
  end.

Definition getUserByUsername (users : JsMap.t) (username : string) : option Obj :=
  List.find (has_username username) (JsMap.values users).

Definition createUser (users : JsMap.t) (id : string) (insertUser : Obj)
    : JsMap.t * Obj :=
  let user : Obj := <["id" := VStr id]> insertUser in
  (JsMap.set users id user, user).

(** DELETE /api/orders/:id *)
Definition deleteOrderRoute (st : Store) (id : string) : Store * Response :=
  match deleteOrder st id with
  | (st', true) => (st', Json (VObj (<["success" := VBool true]> ∅)))
  | (st', false) => (st', Error 404)
  end.

(** The record has the given time value. *)
Definition stamped_at (t : Z) (p : Obj) : bool :=
  match stamp p with
  | Some t' => t' =? t
  | None => false
  end.

(** [order.productId === productId] for a text [productId]. *)
Definition refers_to (productId : string) (order : Obj) : bool :=
  match get order "productId" with
  | VStr a => String.eqb a productId
  | _ => false
  end.

(** ** Code fences around a model reply (server/routes.ts)

    Both the analysis route and the marketing route clean the text of the
    reply in the same way before they hand it to [JSON.parse]. *)

(** The class [\w]: the ASCII letters, the digits and the underscore. *)
Definition is_word (c : ascii) : bool :=
  let n := nat_of_ascii c in
  ((48 <=? n) && (n <=? 57) || (65 <=? n) && (n <=? 90)
   || (97 <=? n) && (n <=? 122) || (n =? 95))%nat.

Fixpoint all_word (s : string) : bool :=
  match s with
  | EmptyString => true
  | String c r => is_word c && all_word r
  end.

Fixpoint skip_word (s : string) : string :=
  match s with
  | EmptyString => EmptyString
  | String c r => if is_word c then skip_word r else s
  end.

Definition skip_newline (s : string) : string :=
  match s with
  | EmptyString => EmptyString
  | String c r => if Ascii.eqb c newline then r else s
  end.

(** [s.replace(/^```[\w]*\n?/, '')]: the three backticks at the start, the
    word characters after them and one line feed, if there is one. *)
Definition strip_fence_open (s : string) : string :=
  if String.prefix "```" s
  then
    match s with
    | String _ (String _ (String _ r)) => skip_newline (skip_word r)
    | _ => s
    end
  else s.

(** [s.replace(/\n?```$/, '')]: the three backticks that end the text and
    the line feed before them, if there is one (the leftmost match). *)
Fixpoint strip_fence_close (s : string) : string :=
  match s with
  | EmptyString => EmptyString
  | String c r =>
      if String.eqb s (String newline "```") || String.eqb s "```"
      then EmptyString
      else String c (strip_fence_close r)
  end.

(** [cleanContent]: what the routes parse. *)
Definition cleanContent (content : string) : string :=
  let clean := trim content in
  if String.prefix "```" clean
  then strip_fence_close (strip_fence_open clean)
  else clean.

(** The eight properties of its body that POST /api/orders reads. *)
Definition order_fields : list string :=
  [ "productId"; "customerName"; "customerPhone"; "customerAddress";
    "customerCity"; "notes"; "quantity"; "language" ].

(** The three required fields of an order request are all present. *)
Definition required_present (body : Obj) : bool :=
  truthy (get body "productId") && truthy (get body "customerName")
  && truthy (get body "customerPhone").

(** ** generateOrderPDF (server/routes.ts) *)

Record OrderLabels : Type := mkOrderLabels {
  o_order : string;
  o_customer : string;
  o_phone : string;
  o_city : string;
  o_address : string;
  o_quantity : string;
  o_status : string;
  o_product : string;
  o_date : string;
  o_script : string;
  o_statuses : Obj
}.

Definition order_labels (lang : Language) : OrderLabels :=
  match lang with
  | Ar =>
      mkOrderLabels "تفاصيل الطلب" "اسم العميل" "رقم الهاتف" "المدينة" "العنوان" "الكمية" "الحالة" "المنتج" "التاريخ" "سكربت التأكيد"
      (<["delivered" := VStr "تم التوصيل"]> (<["cancelled" := VStr "ملغي"]>
       (<["confirmed" := VStr "مؤكد"]> (<["pending" := VStr "قيد الانتظار"]> ∅))))
  | En =>
      mkOrderLabels "Order Details" "Customer Name" "Phone Number" "City" "Address" "Quantity" "Status" "Product" "Date" "Confirmation Script"
      (<["delivered" := VStr "Delivered"]> (<["cancelled" := VStr "Cancelled"]>
       (<["confirmed" := VStr "Confirmed"]> (<["pending" := VStr "Pending"]> ∅))))
  | Fr =>
      mkOrderLabels "Détails de la Commande" "Nom du Client" "Téléphone" "Ville" "Adresse" "Quantité" "Statut" "Produit" "Date" "Script de Confirmation"
      (<["delivered" := VStr "Livré"]> (<["cancelled" := VStr "Annulé"]>
       (<["confirmed" := VStr "Confirmé"]> (<["pending" := VStr "En attente"]> ∅))))
  end.

(** The locale the dates are written in. *)
Definition locale (lang : Language) : string :=
  match lang with
  | Ar => "ar-MA"
  | Fr => "fr-FR"
  | En => "en-US"
  end.

(** The price paragraph of the product block. *)
Definition price_line (v : Value) : Outcome string :=
  if truthy v then
    text ← to_string v;
    Ok ("<p style=" +:+ dq +:+ "color: #6b7280; margin-top: 5px;" +:+ dq +:+ ">" +:+ text +:+ "</p>")
  else Ok "".

(** The product block, left out when the order's product is not stored. *)
Definition product_block (title : string) (product : option Obj)
    : Outcome string :=
  match product with
  | Some product =>
      image ← to_string (get product "imageUrl");
      pname ← to_string (get product "name");
      price ← price_line (get product "price");
      Ok ("
  <div class=" +:+ dq +:+ "section" +:+ dq +:+ ">
    <div class=" +:+ dq +:+ "section-title" +:+ dq +:+ ">" +:+ title +:+ "</div>
    <div class=" +:+ dq +:+ "product-info" +:+ dq +:+ ">
      <img src=" +:+ dq +:+ image +:+ dq +:+ " alt=" +:+ dq +:+ pname +:+ dq +:+ " class=" +:+ dq +:+ "product-image" +:+ dq +:+ ">
      <div class=" +:+ dq +:+ "product-details" +:+ dq +:+ ">
        <h3>" +:+ pname +:+ "</h3>
        " +:+ price +:+ "
      </div>
    </div>
  </div>
  ")
  | None => Ok ""
  end.

(** The city and address rows. *)
Definition order_row (label : string) (v : Value) : Outcome string :=
  if truthy v then
    text ← to_string v;
    Ok ("
    <div class=" +:+ dq +:+ "detail-row" +:+ dq +:+ ">
      <span class=" +:+ dq +:+ "detail-label" +:+ dq +:+ ">" +:+ label +:+ ":</span>
      <span class=" +:+ dq +:+ "detail-value" +:+ dq +:+ ">" +:+ text +:+ "</span>
    </div>")
  else Ok "".

(** The block that shows the stored confirmation script. *)
Definition script_block (title : string) (v : Value) : Outcome string :=
  if truthy v then
    text ← to_string v;
    Ok ("
  <div class=" +:+ dq +:+ "section" +:+ dq +:+ ">
    <div class=" +:+ dq +:+ "section-title" +:+ dq +:+ ">" +:+ title +:+ "</div>
    <div class=" +:+ dq +:+ "script" +:+ dq +:+ ">" +:+ text +:+ "</div>
  </div>
  ")
  else Ok "".

(** [t.statuses[order.status] || order.status], converted to text: the
    status is first converted to the property key. *)
Definition status_label (statuses : Obj) (status : Value) : Outcome string :=
  key ← to_string status;
  to_string (js_or (get_computed statuses key) status).

(** The template of the document, between the line feed that opens the
    literal and the line feed and indentation that close it. *)
Definition order_document (t : OrderLabels) (dir code name productHTML phone
    city address qty status statusLabel date scriptHTML today : string)
    : string :=
  "<!DOCTYPE html>
<html dir=" +:+ dq +:+ dir +:+ dq +:+ " lang=" +:+ dq +:+ code +:+ dq +:+ ">
<head>
  <meta charset=" +:+ dq +:+ "UTF-8" +:+ dq +:+ ">
  <title>" +:+ o_order t +:+ " - " +:+ name +:+ "</title>
  <style>
    * { margin: 0; padding: 0; box-sizing: border-box; }
    body { font-family: Arial, sans-serif; padding: 40px; max-width: 800px; margin: 0 auto; background: #fff; color: #333; }
    .header { text-align: center; margin-bottom: 30px; padding-bottom: 20px; border-bottom: 2px solid #eee; }
    .header h1 { font-size: 24px; color: #1a56db; margin-bottom: 10px; }
    .section { margin-bottom: 30px; }
    .section-title { font-size: 18px; font-weight: bold; margin-bottom: 15px; color: #374151; }
    .detail-row { display: flex; margin-bottom: 12px; padding: 10px; background: #f9fafb; border-radius: 6px; }
    .detail-label { font-weight: bold; min-width: 140px; color: #6b7280; }
    .detail-value { flex: 1; }
    .product-info { display: flex; gap: 20px; padding: 15px; background: #f0f9ff; border-radius: 8px; margin-bottom: 20px; }
    .product-image { width: 100px; height: 100px; object-fit: cover; border-radius: 6px; }
    .product-details { flex: 1; }
    .status { display: inline-block; padding: 4px 12px; border-radius: 20px; font-size: 12px; font-weight: bold; }
    .status-pending { background: #fef3c7; color: #92400e; }
    .status-confirmed { background: #d1fae5; color: #065f46; }
    .status-cancelled { background: #fee2e2; color: #991b1b; }
    .status-delivered { background: #dbeafe; color: #1e40af; }
    .script { margin-top: 20px; padding: 20px; background: #f9fafb; border-radius: 8px; white-space: pre-wrap; line-height: 1.8; font-size: 14px; }
    .footer { text-align: center; margin-top: 40px; padding-top: 20px; border-top: 2px solid #eee; color: #9ca3af; font-size: 12px; }
    @media print { body { padding: 20px; } }
  </style>
</head>
<body>
  <div class=" +:+ dq +:+ "header" +:+ dq +:+ ">
    <h1>" +:+ o_order t +:+ "</h1>
  </div>
  
  " +:+ productHTML +:+ "

  <div class=" +:+ dq +:+ "section" +:+ dq +:+ ">
    <div class=" +:+ dq +:+ "detail-row" +:+ dq +:+ ">
      <span class=" +:+ dq +:+ "detail-label" +:+ dq +:+ ">" +:+ o_customer t +:+ ":</span>
      <span class=" +:+ dq +:+ "detail-value" +:+ dq +:+ ">" +:+ name +:+ "</span>
    </div>
    <div class=" +:+ dq +:+ "detail-row" +:+ dq +:+ ">
      <span class=" +:+ dq +:+ "detail-label" +:+ dq +:+ ">" +:+ o_phone t +:+ ":</span>
      <span class=" +:+ dq +:+ "detail-value" +:+ dq +:+ ">" +:+ phone +:+ "</span>
    </div>
    " +:+ city +:+ "
    " +:+ address +:+ "
    <div class=" +:+ dq +:+ "detail-row" +:+ dq +:+ ">
      <span class=" +:+ dq +:+ "detail-label" +:+ dq +:+ ">" +:+ o_quantity t +:+ ":</span>
      <span class=" +:+ dq +:+ "detail-value" +:+ dq +:+ ">" +:+ qty +:+ "</span>
    </div>
    <div class=" +:+ dq +:+ "detail-row" +:+ dq +:+ ">
      <span class=" +:+ dq +:+ "detail-label" +:+ dq +:+ ">" +:+ o_status t +:+ ":</span>
      <span class=" +:+ dq +:+ "detail-value" +:+ dq +:+ ">
        <span class=" +:+ dq +:+ "status status-" +:+ status +:+ dq +:+ ">" +:+ statusLabel +:+ "</span>
      </span>
    </div>
    <div class=" +:+ dq +:+ "detail-row" +:+ dq +:+ ">
      <span class=" +:+ dq +:+ "detail-label" +:+ dq +:+ ">" +:+ o_date t +:+ ":</span>
      <span class=" +:+ dq +:+ "detail-value" +:+ dq +:+ ">" +:+ date +:+ "</span>
    </div>
  </div>

  " +:+ scriptHTML +:+ "

  <div class=" +:+ dq +:+ "footer" +:+ dq +:+ ">
    <p>ProductAI - " +:+ today +:+ "</p>
  </div>
</body>
</html>".

Section OrderDocuments.

Variable date_parse : string -> option Z.

(** [new Date(ms).toLocaleDateString(locale)] for a time value [ms]: the
    host's rendering, which depends on its time zone and locale data. *)
Variable locale_date : Z -> string -> string.

(** [new Date(v).toLocaleDateString(locale)] *)
Definition date_text (v : Value) (lang : Language) : Outcome string :=
  t ← time_value date_parse v;
  Ok (match t with
      | Some ms => locale_date ms (locale lang)
      | None => "Invalid Date"
      end).

(** [product] is absent when the order's product is not stored; [now] is
    the instant the document is generated. *)
Definition generateOrderPDF (order : Obj) (product : option Obj)
    (lang : Language) (now : Z) : Outcome string :=
  let t := order_labels lang in
  let dir := match lang with Ar => "rtl" | _ => "ltr" end in
  name ← to_string (get order "customerName");
  productHTML ← product_block (o_product t) product;
  phone ← to_string (get order "customerPhone");
  city ← order_row (o_city t) (get order "customerCity");
  address ← order_row (o_address t) (get order "customerAddress");
  qty ← to_string (get order "quantity");
  status ← to_string (get order "status");
  statusLabel ← status_label (o_statuses t) (get order "status");
  date ← date_text (get order "createdAt") lang;
  scriptHTML ← script_block (o_script t) (get order "confirmationScript");
  Ok (trim (template_open
            +:+ order_document t dir (lang_code lang) name productHTML phone
                  city address qty status statusLabel date scriptHTML
                  (locale_date now (locale lang))
            +:+ document_close)).

End OrderDocuments.

(** The statuses an order is meant to take (shared/schema.ts,
    [orderStatusEnum]). *)
Definition order_statuses : list string :=
  [ "pending"; "confirmed"; "cancelled"; "delivered" ].

(** A computation returned rather than threw. *)
Definition succeeds {A : Type} (o : Outcome A) : bool :=
  match o with
  | Ok _ => true
  | Throw _ => false
  end.

(** Ali's order of two chairs as the store holds it once confirmed, and
    a store that holds the chair and that order. *)
Definition ali_order : Obj :=
  <["createdAt" := VNum 2000]>
  (<["confirmationScript" := VStr "Hello Ali"]>
  (<["status" := VStr "confirmed"]>
  (<["quantity" := VNum 2]>
  (<["customerCity" := VStr "Rabat"]>
  (<["customerPhone" := VStr "555"]>
  (<["customerName" := VStr "Ali"]>
  (<["productId" := VStr "p1"]>
  (<["id" := VStr "o1"]> ∅)))))))).

Definition ali_store : Store :=
  mkStore (products chair_store) (JsMap.set JsMap.empty "o1" ali_order).

(** * Properties *)

(** ** The store's maps *)

Lemma JsMap_get_set_eq (m : JsMap.t) (k : string) (v : Obj) :
  JsMap.get (JsMap.set m k v) k = Some v.
Proof.
  induction m as [|[k' v'] m IH]; simpl.
  - by rewrite String.eqb_refl.
  - destruct (String.eqb k' k) eqn:E; simpl; rewrite E; [done | exact IH].
Qed.

Lemma JsMap_get_set_ne (m : JsMap.t) (k k' : string) (v : Obj) :
  k ≠ k' → JsMap.get (JsMap.set m k v) k' = JsMap.get m k'.
Proof.
  intros Hne. induction m as [|[k0 v0] m IH]; simpl.
  - apply String.eqb_neq in Hne. by rewrite Hne.
  - destruct (String.eqb k0 k) eqn:E; simpl.
    + apply String.eqb_eq in E. subst k0.
      apply String.eqb_neq in Hne. by rewrite Hne.
    + by rewrite IH.
Qed.

Lemma JsMap_get_remove_eq (m : JsMap.t) (k : string) :
  JsMap.get (JsMap.remove m k) k = None.
Proof.
  induction m as [|[k' v'] m IH]; simpl; [done |].
  destruct (String.eqb k' k) eqn:E; simpl; [exact IH |].
  by rewrite E.
Qed.

Lemma JsMap_get_remove_ne (m : JsMap.t) (k k' : string) :
  k ≠ k' → JsMap.get (JsMap.remove m k) k' = JsMap.get m k'.
Proof.
  intros Hne. induction m as [|[k0 v0] m IH]; simpl; [done |].
  destruct (String.eqb k0 k) eqn:E; simpl.
  - apply String.eqb_eq in E. subst k0.
    apply String.eqb_neq in Hne. by rewrite Hne.
  - by rewrite IH.
Qed.

(** ** Reading properties of object literals *)

Lemma get_insert_eq (o : Obj) (k : string) (v : Value) :
  get (<[k := v]> o) k = v.
Proof. unfold get. by rewrite lookup_insert_eq. Qed.

Lemma get_insert_ne (o : Obj) (k k' : string) (v : Value) :
  k ≠ k' → get (<[k := v]> o) k' = get o k'.
Proof. intros H. unfold get. by rewrite lookup_insert_ne. Qed.

Lemma js_or_falsy (a b : Value) : truthy a = false → js_or a b = b.
Proof. unfold js_or. by intros ->. Qed.

Lemma js_or_truthy (a b : Value) : truthy a = true → js_or a b = a.
Proof. unfold js_or. by intros ->. Qed.

Ltac read_literal :=
  repeat first
    [ rewrite get_insert_eq
    | rewrite get_insert_ne by discriminate
    | rewrite lookup_insert_eq
    | rewrite lookup_insert_ne by discriminate ].

(** ** updateProduct and deleteProduct on absent ids *)

(** C7: updating an id that is not stored returns the absent value and
    leaves the store as it was; the route answers 404, it does not throw. *)
Theorem updateProduct_absent_id (st : Store) (id : string) (updates : Obj) :
  getProduct st id = None →
  updateProduct st id updates = (st, None)
  ∧ patchProduct st id updates = (st, Error 404).
Proof.
  unfold getProduct, patchProduct, updateProduct. intros ->. done.
Qed.

Lemma updateProduct_absent_id_witness :
  let st := fst (createProduct emptyStore "p1" 1000 (<["name" := VStr "Chair"]> ∅)) in
  getProduct st "p2" = None
  ∧ updateProduct st "p2" (<["name" := VStr "Stool"]> ∅) = (st, None)
  ∧ patchProduct st "p2" (<["name" := VStr "Stool"]> ∅) = (st, Error 404).
Proof.
  split; [reflexivity |].
  apply (updateProduct_absent_id
           (fst (createProduct emptyStore "p1" 1000 (<["name" := VStr "Chair"]> ∅)))
           "p2" (<["name" := VStr "Stool"]> ∅)).
  reflexivity.
Defined.

(** ** deleteProduct *)

Lemma deleteProduct_result (st : Store) (id : string) :
  deleteProduct st id
  = (mkStore (JsMap.remove (products st) id) (orders st),
     JsMap.has (products st) id).
Proof. reflexivity. Qed.

Lemma call_keeps_absent (st : Store) (c : ProductCall) (id : string) :
  creates id c = false →
  getProduct st id = None →
  getProduct (call st c) id = None.
Proof.
  unfold getProduct.
  destruct c as [id' now input | id' updates | id']; simpl; intros Hc Hst.
  - apply String.eqb_neq in Hc. by rewrite JsMap_get_set_ne.
  - unfold updateProduct.
    destruct (JsMap.get (products st) id') as [p|] eqn:E; simpl; [| done].
    rewrite JsMap_get_set_ne; [done |]. intros ->. congruence.
  - destruct (String.eqb id' id) eqn:E.
    + apply String.eqb_eq in E. subst. apply JsMap_get_remove_eq.
    + apply String.eqb_neq in E. by rewrite JsMap_get_remove_ne.
Qed.

Lemma replay_keeps_absent (history : list ProductCall) (st : Store) (id : string) :
  never_created id history = true →
  getProduct st id = None →
  getProduct (replay history st) id = None.
Proof.
  revert st. induction history as [|c history IH]; simpl; intros st Hh Hst.
  - done.
  - apply andb_true_iff in Hh as [Hc Hh].
    apply IH; [done |]. apply call_keeps_absent; [| done].
    by destruct (creates id c).
Qed.

Lemma call_keeps_present (st : Store) (c : ProductCall) (id : string) :
  deletes id c = false →
  JsMap.has (products st) id = true →
  JsMap.has (products (call st c)) id = true.
Proof.
  unfold JsMap.has.
  destruct c as [id' now input | id' updates | id']; simpl; intros Hc Hst.
  - destruct (String.eqb id' id) eqn:E.
    + apply String.eqb_eq in E. subst. by rewrite JsMap_get_set_eq.
    + apply String.eqb_neq in E. by rewrite JsMap_get_set_ne.
  - unfold updateProduct.
    destruct (JsMap.get (products st) id') as [p|] eqn:E; simpl; [| done].
    destruct (String.eqb id' id) eqn:E'.
    + apply String.eqb_eq in E'. subst. by rewrite JsMap_get_set_eq.
    + apply String.eqb_neq in E'. by rewrite JsMap_get_set_ne.
  - apply String.eqb_neq in Hc. by rewrite JsMap_get_remove_ne.
Qed.

Lemma replay_keeps_present (history : list ProductCall) (st : Store) (id : string) :
  never_deleted id history = true →
  JsMap.has (products st) id = true →
  JsMap.has (products (replay history st)) id = true.
Proof.
  revert st. induction history as [|c history IH]; simpl; intros st Hh Hst.
  - done.
  - apply andb_true_iff in Hh as [Hc Hh].
    apply IH; [done |]. apply call_keeps_present; [| done].
    by destruct (deletes id c).
Qed.

(** C8: deleteProduct answers false for an id that no call of the history
    created and for an id already deleted, and answers true for a created
    id exactly once: whatever calls other than its deletion came after the
    creation, the first deleteProduct answers true and the next one
    answers false. *)
Theorem deleteProduct_true_exactly_once :
  (∀ (history : list ProductCall) (id : string),
     never_created id history = true →
     snd (deleteProduct (replay history emptyStore) id) = false)
  ∧ (∀ (st : Store) (id : string),
       snd (deleteProduct (fst (deleteProduct st id)) id) = false)
  ∧ (∀ (st : Store) (id : string) (now : Z) (insertProduct : Obj)
       (later : list ProductCall),
       never_deleted id later = true →
       let st1 := replay later (fst (createProduct st id now insertProduct)) in
       snd (deleteProduct st1 id) = true
       ∧ snd (deleteProduct (fst (deleteProduct st1 id)) id) = false).
Proof.
  assert (Hgone : ∀ st id, snd (deleteProduct (fst (deleteProduct st id)) id) = false).
  { intros st id. rewrite !deleteProduct_result. simpl.
    unfold JsMap.has. by rewrite JsMap_get_remove_eq. }
  split; [| split].
  - intros history id Hh. rewrite deleteProduct_result. simpl.
    unfold JsMap.has.
    pose proof (replay_keeps_absent history emptyStore id Hh eq_refl) as H.
    unfold getProduct in H. by rewrite H.
  - exact Hgone.
  - intros st id now input later Hl st1. split; [| apply Hgone].
    subst st1. rewrite deleteProduct_result. simpl.
    apply replay_keeps_present; [done |]. simpl.
    unfold JsMap.has. by rewrite JsMap_get_set_eq.
Qed.

Lemma deleteProduct_true_exactly_once_witness :
  let history :=
    [ CallCreate "p1" 1000 (<["name" := VStr "Chair"]> ∅);
      CallCreate "p2" 1001 (<["name" := VStr "Stool"]> ∅);
      CallDelete "p1" ] in
  never_created "p3" history = true
  ∧ snd (deleteProduct (replay history emptyStore) "p3") = false
  ∧ snd (deleteProduct (replay history emptyStore) "p1") = false
  ∧ snd (deleteProduct (replay history emptyStore) "p2") = true.
Proof.
  split; [reflexivity |]. split; [| split; reflexivity].
  apply (proj1 deleteProduct_true_exactly_once
           [ CallCreate "p1" 1000 (<["name" := VStr "Chair"]> ∅);
             CallCreate "p2" 1001 (<["name" := VStr "Stool"]> ∅);
             CallDelete "p1" ] "p3").
  reflexivity.
Defined.

(** ** benefits and features never become empty *)





Lemma js_or_default_truthy (a : Value) : truthy (js_or a empty_lists) = true.
Proof. unfold js_or. by destruct (truthy a) eqn:E. Qed.








(** ** createOrder and updateOrder *)

Lemma createOrder_result (st : Store) (id : string) (now : Z) (input : Obj) :
  let order := snd (createOrder st id now input) in
  fst (createOrder st id now input)
  = mkStore (products st) (JsMap.set (orders st) id order)
  ∧ get order "status" = js_or (get input "status") (VStr "pending")
  ∧ get order "quantity" = js_or (get input "quantity") (VNum 1)
  ∧ get order "language" = js_or (get input "language") (VStr "ar")
  ∧ get order "confirmationScript" = js_or (get input "confirmationScript") VNull.
Proof. simpl. split; [done |]. by read_literal. Qed.

(** C10: createOrder replaces every falsy quantity, status and language
    by the default, not only an absent one: an input with quantity 0 is
    stored with quantity 1, one with the empty status with status
    pending, one with the empty language with language ar. *)
Theorem createOrder_falsy_defaults (st : Store) (id : string) (now : Z)
    (insertOrder : Obj) :
  let order := snd (createOrder st id now insertOrder) in
  getOrder (fst (createOrder st id now insertOrder)) id = Some order
  ∧ (truthy (get insertOrder "quantity") = false → get order "quantity" = VNum 1)
  ∧ (truthy (get insertOrder "status") = false → get order "status" = VStr "pending")
  ∧ (truthy (get insertOrder "language") = false → get order "language" = VStr "ar").
Proof.
  intros order.
  destruct (createOrder_result st id now insertOrder) as (Hst & Hs & Hq & Hl & _).
  fold order in Hst, Hs, Hq, Hl.
  split.
  - rewrite Hst. unfold getOrder. simpl. apply JsMap_get_set_eq.
  - rewrite Hs, Hq, Hl. repeat split; intros H; by rewrite js_or_falsy.
Qed.

Lemma createOrder_falsy_defaults_witness :
  let insertOrder : Obj :=
    <["language" := VStr ""]> (<["status" := VStr ""]>
    (<["quantity" := VNum 0]> (<["customerPhone" := VStr "555"]>
    (<["customerName" := VStr "Ali"]> (<["productId" := VStr "p1"]> ∅))))) in
  let order := snd (createOrder emptyStore "o1" 1000 insertOrder) in
  get order "quantity" = VNum 1
  ∧ get order "status" = VStr "pending"
  ∧ get order "language" = VStr "ar".
Proof.
  pose proof (createOrder_falsy_defaults emptyStore "o1" 1000
    (<["language" := VStr ""]> (<["status" := VStr ""]>
    (<["quantity" := VNum 0]> (<["customerPhone" := VStr "555"]>
    (<["customerName" := VStr "Ali"]> (<["productId" := VStr "p1"]> ∅)))))))
    as (_ & Hq & Hs & Hl).
  split; [apply Hq; reflexivity |].
  split; [apply Hs; reflexivity | apply Hl; reflexivity].
Defined.

(** C5: on a stored pending order, updateOrder with the single field
    status set to confirmed yields the order with that status and every
    other property (customerName, quantity, confirmationScript among
    them) as it was; the other orders and the products are untouched, and
    the route answers with the same order. *)
Theorem updateOrder_confirm_changes_only_status (st : Store) (id : string)
    (order : Obj) :
  getOrder st id = Some order →
  get order "status" = VStr "pending" →
  ∃ (st' : Store) (updated : Obj),
    updateOrder st id {["status" := VStr "confirmed"]} = (st', Some updated)
    ∧ patchOrder st id {["status" := VStr "confirmed"]} = (st', Json (VObj updated))
    ∧ getOrder st' id = Some updated
    ∧ get updated "status" = VStr "confirmed"
    ∧ (∀ k : string, k ≠ "status" → updated !! k = order !! k)
    ∧ get updated "customerName" = get order "customerName"
    ∧ get updated "quantity" = get order "quantity"
    ∧ get updated "confirmationScript" = get order "confirmationScript"
    ∧ (∀ other : string, other ≠ id → getOrder st' other = getOrder st other)
    ∧ products st' = products st.
Proof.
  intros Ho Hs. unfold getOrder in Ho.
  assert (Hframe : ∀ k : string, k ≠ "status" →
            spread order {["status" := VStr "confirmed"]} !! k = order !! k).
  { intros k Hk. unfold spread. rewrite lookup_union_r; [done |].
    by rewrite lookup_singleton_ne. }
  exists (mkStore (products st)
            (JsMap.set (orders st) id (spread order {["status" := VStr "confirmed"]}))),
         (spread order {["status" := VStr "confirmed"]}).
  unfold patchOrder, updateOrder. rewrite Ho.
  repeat split.
  - unfold getOrder. simpl. apply JsMap_get_set_eq.
  - unfold get, spread. rewrite lookup_union_l'; [| by rewrite lookup_singleton_eq].
    by rewrite lookup_singleton_eq.
  - exact Hframe.
  - unfold get. by rewrite Hframe.
  - unfold get. by rewrite Hframe.
  - unfold get. by rewrite Hframe.
  - intros other Hne. unfold getOrder. simpl. by apply JsMap_get_set_ne.
Qed.

Lemma updateOrder_confirm_changes_only_status_witness :
  let created :=
    createOrder emptyStore "o1" 1000
      (<["confirmationScript" := VStr "Hello Ali"]>
      (<["quantity" := VNum 2]> (<["customerName" := VStr "Ali"]> ∅))) in
  getOrder (fst created) "o1" = Some (snd created)
  ∧ get (snd created) "status" = VStr "pending"
  ∧ ∃ (st' : Store) (updated : Obj),
      updateOrder (fst created) "o1" {["status" := VStr "confirmed"]} = (st', Some updated)
      ∧ get updated "status" = VStr "confirmed"
      ∧ get updated "customerName" = VStr "Ali"
      ∧ get updated "quantity" = VNum 2
      ∧ get updated "confirmationScript" = VStr "Hello Ali".
Proof.
  split; [reflexivity |]. split; [reflexivity |].
  destruct (updateOrder_confirm_changes_only_status
              (fst (createOrder emptyStore "o1" 1000
                 (<["confirmationScript" := VStr "Hello Ali"]>
                 (<["quantity" := VNum 2]> (<["customerName" := VStr "Ali"]> ∅)))))
              "o1"
              (snd (createOrder emptyStore "o1" 1000
                 (<["confirmationScript" := VStr "Hello Ali"]>
                 (<["quantity" := VNum 2]> (<["customerName" := VStr "Ali"]> ∅)))))
              ltac:(reflexivity) ltac:(reflexivity))
    as (st' & updated & Hu & _ & _ & Hs & _ & Hn & Hq & Hc & _).
  exists st', updated.
  split; [exact Hu |]. split; [exact Hs |].
  rewrite Hn, Hq, Hc. split; [reflexivity |]. split; reflexivity.
Defined.

(** ** Texts: concatenation and trim *)

(** Concatenation unfolds on a text that starts with a known character. *)
#[local] Arguments String.append !s1 s2 : simpl nomatch.

Lemma app_assoc_s (a b c : string) : (a +:+ b) +:+ c = a +:+ (b +:+ c).
Proof. induction a as [|x a IH]; simpl; [done | by rewrite IH]. Qed.

Lemma two_byte_space_bytes (c d : ascii) :
  two_byte_space c d = true →
  (nat_of_ascii c = 194 ∧ 128 ≤ nat_of_ascii d)%nat.
Proof.
  unfold two_byte_space.
  rewrite andb_true_iff, !Nat.eqb_eq. lia.
Qed.

Lemma three_byte_space_bytes (c d e : ascii) :
  three_byte_space c d e = true →
  ((nat_of_ascii c = 225 ∨ nat_of_ascii c = 226 ∨ nat_of_ascii c = 227
    ∨ nat_of_ascii c = 239)
   ∧ 128 ≤ nat_of_ascii d ∧ 128 ≤ nat_of_ascii e)%nat.
Proof.
  unfold three_byte_space. cbv zeta.
  rewrite !orb_true_iff, !andb_true_iff, !orb_true_iff, !andb_true_iff,
    !Nat.eqb_eq, !Nat.leb_le.
  lia.
Qed.

Lemma no_space_lead_bytes (c : ascii) :
  no_space_lead c = true →
  ascii_space c = false
  ∧ (nat_of_ascii c ≠ 194 ∧ nat_of_ascii c ≠ 225 ∧ nat_of_ascii c ≠ 226
     ∧ nat_of_ascii c ≠ 227 ∧ nat_of_ascii c ≠ 239)%nat.
Proof.
  unfold no_space_lead. cbv zeta.
  rewrite andb_true_iff, !negb_true_iff, !orb_false_iff, !Nat.eqb_neq.
  tauto.
Qed.

Lemma anchor_bytes (c : ascii) :
  anchor c = true → ascii_space c = false ∧ (nat_of_ascii c < 128)%nat.
Proof.
  unfold anchor. rewrite andb_true_iff, negb_true_iff, Nat.ltb_lt. tauto.
Qed.

Lemma anchor_not_second (c x : ascii) : anchor c = true → two_byte_space x c = false.
Proof.
  intros [_ Hc]%anchor_bytes.
  destruct (two_byte_space x c) eqn:E; [| done].
  apply two_byte_space_bytes in E. lia.
Qed.

Lemma anchor_not_first (c y : ascii) : anchor c = true → two_byte_space c y = false.
Proof.
  intros [_ Hc]%anchor_bytes.
  destruct (two_byte_space c y) eqn:E; [| done].
  apply two_byte_space_bytes in E. lia.
Qed.

Lemma anchor_not_in_three (c x y z : ascii) :
  anchor c = true → c = x ∨ c = y ∨ c = z → three_byte_space x y z = false.
Proof.
  intros [_ Hc]%anchor_bytes Hin.
  destruct (three_byte_space x y z) eqn:E; [| done].
  apply three_byte_space_bytes in E.
  destruct Hin as [<- | [<- | <-]]; lia.
Qed.

Lemma trimStart_no_lead (c : ascii) (r : string) :
  no_space_lead c = true → trimStart (String c r) = String c r.
Proof.
  intros [Hs Hn]%no_space_lead_bytes. simpl. rewrite Hs.
  destruct r as [|d r1]; [done |].
  destruct (two_byte_space c d) eqn:E2.
  { apply two_byte_space_bytes in E2. lia. }
  destruct r1 as [|e r2]; [done |].
  destruct (three_byte_space c d e) eqn:E3; [| done].
  apply three_byte_space_bytes in E3. lia.
Qed.

Lemma all_space_anchor_bounded (c : ascii) (b : string) (n : nat) (a : string) :
  anchor c = true →
  (String.length a ≤ n)%nat →
  all_space (a +:+ String c b) = false.
Proof.
  intros Hc. revert a.
  induction n as [n IH] using lt_wf_ind. intros a Hlen.
  pose proof (anchor_bytes c Hc) as [Hsp _].
  destruct a as [|x a1].
  - simpl. rewrite Hsp.
    destruct b as [|d b1]; [done |].
    rewrite (anchor_not_first c d Hc).
    destruct b1 as [|e b2]; [done |].
    by rewrite (anchor_not_in_three c c d e Hc) by auto.
  - simpl in Hlen. cbn [append all_space].
    destruct (ascii_space x).
    { apply (IH (String.length a1)); lia. }
    destruct a1 as [|y a2].
    + cbn [append]. rewrite (anchor_not_second c x Hc).
      destruct b as [|e b1]; [done |].
      by rewrite (anchor_not_in_three c x c e Hc) by auto.
    + simpl in Hlen. cbn [append].
      destruct (two_byte_space x y).
      { apply (IH (String.length a2)); lia. }
      destruct a2 as [|z a3].
      * cbn [append]. by rewrite (anchor_not_in_three c x y c Hc) by auto.
      * simpl in Hlen. cbn [append].
        destruct (three_byte_space x y z); [| done].
        apply (IH (String.length a3)); lia.
Qed.

Lemma all_space_anchor (c : ascii) (a b : string) :
  anchor c = true → all_space (a +:+ String c b) = false.
Proof. intros Hc. by apply (all_space_anchor_bounded c b (String.length a) a). Qed.

Lemma trimEnd_app_anchor (c : ascii) (a b : string) :
  anchor c = true →
  trimEnd (a +:+ String c b) = a +:+ String c (trimEnd b).
Proof.
  intros Hc. induction a as [|x a IH].
  - pose proof (all_space_anchor c "" b Hc) as H.
    change ("" +:+ String c b) with (String c b) in H.
    cbn [append trimEnd]. by rewrite H.
  - pose proof (all_space_anchor c (String x a) b Hc) as H.
    cbn [append] in H. cbn [append trimEnd]. rewrite H. by rewrite IH.
Qed.

Lemma trimEnd_all_space (s : string) : all_space s = true → trimEnd s = "".
Proof. destruct s; [done |]. cbn [trimEnd]. by intros ->. Qed.

Lemma ends_anchor_split (s : string) :
  ends_anchor s = true → ∃ m c, s = m +:+ String c "" ∧ anchor c = true.
Proof.
  induction s as [|x s IH]; [done |].
  destruct s as [|y s'].
  - simpl. intros H. by exists "", x.
  - intros H. destruct (IH H) as (m & c & Hm & Hc).
    exists (String x m), c. split; [| done]. simpl. by rewrite <- Hm.
Qed.

Lemma ends_anchor_app (a b : string) :
  ends_anchor b = true → ends_anchor (a +:+ b) = true.
Proof.
  intros Hb. induction a as [|x a IH]; [done |].
  cbn [append ends_anchor].
  destruct (a +:+ b) eqn:E; [| exact IH].
  by destruct a, b.
Qed.

(** What trim makes of a template: the line feed that opens it and the
    white space that closes it go, the text between stays. *)
Lemma trim_template (core trail : string) :
  (∃ c m, core = String c m ∧ no_space_lead c = true) →
  ends_anchor core = true →
  all_space trail = true →
  trim (template_open +:+ core +:+ trail) = core.
Proof.
  intros (c & m & Hcore & Hc) Hend Htrail.
  unfold trim, template_open. cbn [append].
  assert (Hstart : trimStart (String newline (core +:+ trail)) = core +:+ trail).
  { change (trimStart (String newline (core +:+ trail)))
      with (trimStart (core +:+ trail)).
    rewrite Hcore. cbn [append]. by apply trimStart_no_lead. }
  rewrite Hstart.
  destruct (ends_anchor_split core Hend) as (m' & c' & Hm & Hc').
  rewrite Hm at 1. rewrite app_assoc_s. cbn [append].
  rewrite (trimEnd_app_anchor c' m' trail Hc').
  by rewrite (trimEnd_all_space trail Htrail).
Qed.

Ltac ends_anchor_tac :=
  repeat (apply ends_anchor_app); reflexivity.

(** ** Shapes of computed results *)

Lemma is_some_inv {A : Type} (o : option A) :
  is_some o = true → ∃ x, o = Some x.
Proof. destruct o as [x|]; [by exists x | done]. Qed.

Lemma answered_inv (x : Store * Response) :
  is_some (answered (snd x)) = true →
  ∃ (st' : Store) (o : Obj), x = (st', Json (VObj o)).
Proof.
  destruct x as [st' [[| | | | | |o|] | code]]; try done.
  intros _. by exists st', o.
Qed.

(** ** The confirmation script *)

Lemma outcome_bind_inv {A B : Type} (f : A → Outcome B) (m : Outcome A) (b : B) :
  mbind f m = Ok b → ∃ a, m = Ok a ∧ f a = Ok b.
Proof. destruct m as [a|e]; [by exists a | done]. Qed.

Lemma script_ar_trim (name pname qty price desc city address : string) :
  trim (template_open +:+ script_ar_text name pname qty price desc city address
        +:+ script_close)
  = script_ar_text name pname qty price desc city address.
Proof.
  apply trim_template.
  - do 2 eexists. split; reflexivity.
  - unfold script_ar_text. ends_anchor_tac.
  - reflexivity.
Qed.

Lemma script_en_trim (name pname qty price desc city address : string) :
  trim (template_open +:+ script_en_text name pname qty price desc city address
        +:+ script_close)
  = script_en_text name pname qty price desc city address.
Proof.
  apply trim_template.
  - do 2 eexists. split; reflexivity.
  - unfold script_en_text. ends_anchor_tac.
  - reflexivity.
Qed.

Lemma script_fr_trim (name pname qty price desc city address : string) :
  trim (template_open +:+ script_fr_text name pname qty price desc city address
        +:+ script_close)
  = script_fr_text name pname qty price desc city address.
Proof.
  apply trim_template.
  - do 2 eexists. split; reflexivity.
  - unfold script_fr_text. ends_anchor_tac.
  - reflexivity.
Qed.

(** Each entry of [scripts], when it is built at all, is a text that is
    not empty. *)
Lemma script_ar_not_empty (product : Obj) (customer : Customer) (s : string) :
  script_ar product customer = Ok s → s ≠ "".
Proof.
  unfold script_ar. intros H.
  do 8 (apply outcome_bind_inv in H as (? & _ & H)).
  rewrite script_ar_trim in H. injection H as <-. discriminate.
Qed.

Lemma script_en_not_empty (product : Obj) (customer : Customer) (s : string) :
  script_en product customer = Ok s → s ≠ "".
Proof.
  unfold script_en. intros H.
  do 8 (apply outcome_bind_inv in H as (? & _ & H)).
  rewrite script_en_trim in H. injection H as <-. discriminate.
Qed.

Lemma script_fr_not_empty (product : Obj) (customer : Customer) (s : string) :
  script_fr product customer = Ok s → s ≠ "".
Proof.
  unfold script_fr. intros H.
  do 8 (apply outcome_bind_inv in H as (? & _ & H)).
  rewrite script_fr_trim in H. injection H as <-. discriminate.
Qed.

(** ** Occurrences of a text in another *)

Lemma prefix_empty (s : string) : String.prefix "" s = true.
Proof. by destruct s. Qed.

Lemma prefix_sep (c : ascii) (n a b : string) :
  char_in c n = false →
  String.prefix n (a +:+ String c b) = String.prefix n a.
Proof.
  revert a. induction n as [|y n IH]; intros a Hc.
  - by rewrite !prefix_empty.
  - cbn [char_in] in Hc. apply orb_false_iff in Hc as [Hy Hn].
    destruct a as [|x a]; cbn [append String.prefix].
    + destruct (ascii_dec y c) as [->|]; [| done].
      by rewrite Ascii.eqb_refl in Hy.
    + destruct (ascii_dec y x); [by apply IH | done].
Qed.

Lemma includes_sep (c : ascii) (n a b : string) :
  char_in c n = false →
  includes (a +:+ String c b) n = includes a n || includes b n.
Proof.
  intros Hc. induction a as [|x a IH].
  - cbn [append includes].
    pose proof (prefix_sep c n "" b Hc) as H. cbn [append] in H.
    rewrite H. by rewrite orb_false_r.
  - cbn [append includes]. rewrite IH.
    pose proof (prefix_sep c n (String x a) b Hc) as H. cbn [append] in H.
    rewrite H. by rewrite orb_assoc.
Qed.

Lemma number_text_two : number_text 2 = "2".
Proof. vm_compute. reflexivity. Qed.

(** Number to text at the edges: the last integer written in full and
    the first written with an exponent, rounding beyond 2^53, the
    shortest digits that read back, and overflow. *)
Example number_text_edges :
  number_text 9007199254740991 = "9007199254740991"
  ∧ number_text 9007199254740993 = "9007199254740992"
  ∧ number_text 123456789012345678901 = "123456789012345680000"
  ∧ number_text (10 ^ 21 - 1) = "1e+21"
  ∧ number_text (10 ^ 21) = "1e+21"
  ∧ number_text (- 25 * 10 ^ 21) = "-2.5e+22"
  ∧ number_text 123456789012345678901234 = "1.2345678901234569e+23"
  ∧ number_text (2 ^ 1024) = "Infinity".
Proof. vm_compute. repeat split. Qed.

(** The English script for Ali's order of two chairs at $50, around the
    product's English description [e]. *)
Lemma script_en_chair (product d : Obj) (e : string) (phone : Value) :
  get product "name" = VStr "Chair" →
  get product "price" = VStr "$50" →
  get product "descriptions" = VObj d →
  get d "en" = VStr e →
  script_en product (mkCustomer (VStr "Ali") phone VUndefined VUndefined (VNum 2))
  = Ok (script_en_text "Ali" "Chair" "2" "Price: $50" e "" "").
Proof.
  intros Hn Hp Hd He. unfold script_en, optional_line.
  cbn [customerName customerCity customerAddress quantity].
  rewrite Hn, Hp, Hd. cbn [to_string get_prop truthy mbind outcome_bind negb String.eqb Ascii.eqb Bool.eqb].
  rewrite He, number_text_two. cbn [to_string mbind outcome_bind].
  by rewrite script_en_trim.
Qed.

Lemma script_ar_chair (product d : Obj) (a : string) (phone : Value) :
  get product "name" = VStr "Chair" →
  get product "price" = VStr "$50" →
  get product "descriptions" = VObj d →
  get d "ar" = VStr a →
  script_ar product (mkCustomer (VStr "Ali") phone VUndefined VUndefined (VNum 2))
  = Ok (script_ar_text "Ali" "Chair" "2" "السعر: $50" a "" "").
Proof.
  intros Hn Hp Hd Ha. unfold script_ar, optional_line.
  cbn [customerName customerCity customerAddress quantity].
  rewrite Hn, Hp, Hd. cbn [to_string get_prop truthy mbind outcome_bind negb String.eqb Ascii.eqb Bool.eqb].
  rewrite Ha, number_text_two. cbn [to_string mbind outcome_bind].
  by rewrite script_ar_trim.
Qed.

Lemma script_fr_chair (product d : Obj) (f : string) (phone : Value) :
  get product "name" = VStr "Chair" →
  get product "price" = VStr "$50" →
  get product "descriptions" = VObj d →
  get d "fr" = VStr f →
  script_fr product (mkCustomer (VStr "Ali") phone VUndefined VUndefined (VNum 2))
  = Ok (script_fr_text "Ali" "Chair" "2" "Prix: $50" f "" "").
Proof.
  intros Hn Hp Hd Hf. unfold script_fr, optional_line.
  cbn [customerName customerCity customerAddress quantity].
  rewrite Hn, Hp, Hd. cbn [to_string get_prop truthy mbind outcome_bind negb String.eqb Ascii.eqb Bool.eqb].
  rewrite Hf, number_text_two. cbn [to_string mbind outcome_bind].
  by rewrite script_fr_trim.
Qed.

Lemma script_table_en (ar en fr : string) :
  get_computed (<["fr" := VStr fr]> (<["en" := VStr en]> (<["ar" := VStr ar]> ∅))) "en"
  = VStr en.
Proof. unfold get_computed. by read_literal. Qed.

Lemma script_en_chair_free (e needle : string) :
  needle = "City:" ∨ needle = "Address:" →
  includes e needle = false →
  includes (script_en_text "Ali" "Chair" "2" "Price: $50" e "" "") needle = false.
Proof.
  intros [-> | ->] He; unfold script_en_text; cbn;
    rewrite includes_sep by reflexivity; by rewrite He.
Qed.

Lemma script_en_chair_holds (e needle : string) :
  needle ∈ ["Chair"; "$50"; "Ali"; "2"] →
  includes (script_en_text "Ali" "Chair" "2" "Price: $50" e "" "") needle = true.
Proof.
  rewrite !elem_of_cons, elem_of_nil.
  intros [-> | [-> | [-> | [-> | []]]]]; unfold script_en_text; by cbn.
Qed.

(** C1 (as amended): for language en, a product named Chair priced $50
    whose descriptions are texts, and the customer Ali with quantity 2 and
    neither address nor city, the generator returns one script whatever
    the phone number is; the script contains Chair, $50, Ali and 2, and it
    contains City: (Address:) nowhere unless the product's own English
    description does. *)
Theorem confirmation_script_en_chair (product d : Obj) (a e f : string) :
  get product "name" = VStr "Chair" →
  get product "price" = VStr "$50" →
  get product "descriptions" = VObj d →
  get d "ar" = VStr a →
  get d "en" = VStr e →
  get d "fr" = VStr f →
  ∃ script : string,
    (∀ phone : Value,
       generateConfirmationScript product
         (mkCustomer (VStr "Ali") phone VUndefined VUndefined (VNum 2))
         (VStr "en")
       = Ok (VStr script))
    ∧ includes script "Chair" = true
    ∧ includes script "$50" = true
    ∧ includes script "Ali" = true
    ∧ includes script "2" = true
    ∧ (includes e "City:" = false → includes script "City:" = false)
    ∧ (includes e "Address:" = false → includes script "Address:" = false).
Proof.
  intros Hn Hp Hd Ha He Hf.
  exists (script_en_text "Ali" "Chair" "2" "Price: $50" e "" "").
  split.
  { intros phone. unfold generateConfirmationScript.
    rewrite (script_ar_chair product d a phone Hn Hp Hd Ha).
    rewrite (script_en_chair product d e phone Hn Hp Hd He).
    rewrite (script_fr_chair product d f phone Hn Hp Hd Hf).
    cbn [mbind outcome_bind to_string].
    by rewrite script_table_en. }
  do 4 (split; [apply script_en_chair_holds; set_solver |]).
  split; apply script_en_chair_free; [by left | by right].
Qed.

Lemma confirmation_script_en_chair_witness :
  ∃ script : string,
    generateConfirmationScript chair (ali (VStr "555")) (VStr "en") = Ok (VStr script)
    ∧ includes script "Chair" = true
    ∧ includes script "$50" = true
    ∧ includes script "Ali" = true
    ∧ includes script "2" = true
    ∧ includes script "City:" = false
    ∧ includes script "Address:" = false.
Proof.
  destruct (confirmation_script_en_chair chair
              (<["fr" := VStr "Une chaise en bois."]>
              (<["en" := VStr "A wooden chair."]>
              (<["ar" := VStr "كرسي خشبي."]> ∅)))
              "كرسي خشبي." "A wooden chair." "Une chaise en bois."
              ltac:(reflexivity) ltac:(reflexivity) ltac:(reflexivity)
              ltac:(reflexivity) ltac:(reflexivity) ltac:(reflexivity))
    as (script & Hs & Hc & Hp & Ha & Hq & Hcity & Haddr).
  exists script.
  split; [exact (Hs (VStr "555")) |].
  do 4 (split; [assumption |]).
  split; [apply Hcity | apply Haddr]; reflexivity.
Defined.

(** The phone number 555 is nowhere in the script of the order the claim
    describes: no template has a line for it. *)
Lemma confirmation_script_en_chair_without_phone :
  ∃ script : string,
    generateConfirmationScript chair (ali (VStr "555")) (VStr "en") = Ok (VStr script)
    ∧ includes script "555" = false.
Proof.
  eexists. split; vm_compute; reflexivity.
Qed.

(** ** POST /api/orders *)

Lemma generateConfirmationScript_supported (product : Obj) (customer : Customer)
    (language v : Value) :
  language_supported language = true →
  generateConfirmationScript product customer (js_or language (VStr "ar")) = Ok v →
  ∃ script : string, v = VStr script ∧ script ≠ "".
Proof.
  unfold language_supported, generateConfirmationScript.
  destruct (js_or language (VStr "ar")) as [| | | |k| | |]; try done.
  intros Hk H.
  apply outcome_bind_inv in H as (ar & Har & H).
  apply outcome_bind_inv in H as (en & Hen & H).
  apply outcome_bind_inv in H as (fr & Hfr & H).
  cbn [to_string mbind outcome_bind] in H. injection H as <-.
  apply script_ar_not_empty in Har.
  apply script_en_not_empty in Hen.
  apply script_fr_not_empty in Hfr.
  unfold get_computed.
  apply orb_true_iff in Hk as [Hk | Hk]; [apply orb_true_iff in Hk as [Hk | Hk] |];
    apply String.eqb_eq in Hk; subst k; read_literal; eauto.
Qed.

(** C3 (as amended): an order the creation route answers with, for a
    request whose language is one of ar, en, fr or is left out, refers
    to a stored product, is stored under its id, has status pending and
    carries a confirmation script that is a text and is not empty. *)
Theorem postOrder_pending_with_script (st st' : Store) (id : string) (now : Z)
    (body order : Obj) :
  postOrder st id now body = (st', Json (VObj order)) →
  language_supported (get body "language") = true →
  is_Some (lookupProduct st (get body "productId"))
  ∧ getOrder st' id = Some order
  ∧ get order "status" = VStr "pending"
  ∧ ∃ script : string,
      get order "confirmationScript" = VStr script ∧ script ≠ "".
Proof.
  unfold postOrder. intros H Hlang.
  destruct (negb (truthy (get body "productId"))
            || negb (truthy (get body "customerName"))
            || negb (truthy (get body "customerPhone"))); [done |].
  destruct (lookupProduct st (get body "productId")) as [product|]; [| done].
  destruct (generateConfirmationScript product _ _) as [cs|] eqn:Hcs; [| done].
  apply generateConfirmationScript_supported in Hcs as (script & -> & Hne); [| done].
  match type of H with
  | (let (_, _) := createOrder ?s ?i ?n ?input in _) = _ =>
      pose proof (createOrder_result s i n input) as (Hst & Hs & _ & _ & Hc);
      destruct (createOrder s i n input) as [st1 order1] eqn:Hco
  end.
  cbn [fst snd] in Hst, Hs, Hc. injection H as <- <-.
  split; [done |]. split.
  { rewrite Hst. unfold getOrder. cbn [orders]. apply JsMap_get_set_eq. }
  split.
  { rewrite Hs. by read_literal. }
  exists script. split; [| done].
  rewrite Hc. read_literal. apply js_or_truthy.
  cbn [truthy]. apply negb_true_iff. by apply String.eqb_neq.
Qed.

Lemma postOrder_pending_with_script_witness :
  language_supported (get (order_request (VStr "en")) "language") = true
  ∧ ∃ (st' : Store) (order : Obj),
      postOrder chair_store "o1" 2000 (order_request (VStr "en"))
      = (st', Json (VObj order))
      ∧ get order "status" = VStr "pending"
      ∧ ∃ script : string,
          get order "confirmationScript" = VStr script ∧ script ≠ "".
Proof.
  split; [reflexivity |].
  destruct (answered_inv
              (postOrder chair_store "o1" 2000 (order_request (VStr "en")))
              ltac:(vm_compute; reflexivity)) as (st' & order & E).
  exists st', order. split; [exact E |].
  exact (proj2 (proj2 (postOrder_pending_with_script chair_store st' "o1" 2000
                         (order_request (VStr "en")) order E ltac:(reflexivity)))).
Defined.

(** An order for the stored chair in a language the script table has no
    entry for is created, with status pending and no script at all. *)
Lemma postOrder_unsupported_language :
  is_Some (lookupProduct chair_store (get (order_request (VStr "de")) "productId"))
  ∧ (λ order : Obj, (get order "status", get order "confirmationScript"))
      <$> answered (snd (postOrder chair_store "o1" 2000 (order_request (VStr "de"))))
    = Some (VStr "pending", VNull).
Proof.
  split; [| vm_compute; reflexivity].
  apply is_some_inv. vm_compute. reflexivity.
Qed.

(** ** The descriptions of stored products *)








(** ** getProducts *)

Section ListingProperties.

Variable date_parse : string → option Z.

Lemma newest_first_stamped (a b : Obj) (ta tb : Z) :
  stamp a = Some ta → stamp b = Some tb →
  newest_first date_parse a b = Ok (Some (tb - ta)).
Proof.
  unfold stamp, newest_first. intros Ha Hb.
  destruct (get a "createdAt") as [| | |na| | | |]; try done.
  destruct (get b "createdAt") as [| | |nb| | | |]; try done.
  cbn [time_value mbind outcome_bind].
  destruct (time_valid na); [| done]. destruct (time_valid nb); [| done].
  by injection Ha as ->; injection Hb as ->.
Qed.

Lemma not_older_trans (a b c : Obj) :
  not_older a b → not_older b c → not_older a c.
Proof.
  intros (ta & tb & Ha & Hb & Hab) (tb' & tc & Hb' & Hc & Hbc).
  exists ta, tc. rewrite Hb in Hb'. injection Hb' as <-.
  repeat split; [done | done | lia].
Qed.

Lemma insert_sorted_stamped (x : Obj) (l : list Obj) :
  is_Some (stamp x) →
  Forall (λ p, is_Some (stamp p)) l →
  ∃ l' : list Obj,
    insert_sorted date_parse x l = Ok l'
    ∧ Permutation (x :: l) l'
    ∧ (StronglySorted not_older l → StronglySorted not_older l').
Proof.
  intros [tx Hx] Hl. induction Hl as [|y rest [ty Hy] Hrest IH].
  - exists [x]. split; [done |]. split; [done |].
    intros _. repeat constructor.
  - destruct IH as (l' & Hins & Hperm & Hsorted).
    cbn [insert_sorted]. rewrite (newest_first_stamped x y tx ty Hx Hy).
    cbn [mbind outcome_bind default from_option id].
    destruct (ty - tx <=? 0) eqn:E.
    + apply Z.leb_le in E.
      exists (x :: y :: rest). split; [done |]. split; [done |].
      intros Hs. constructor; [done |].
      assert (Hxy : not_older x y) by (exists tx, ty; repeat split; [done | done | lia]).
      constructor; [done |].
      apply StronglySorted_inv in Hs as [_ Hy_rest].
      eapply Forall_impl; [exact Hy_rest |].
      intros z Hz. by eapply not_older_trans.
    + apply Z.leb_gt in E. rewrite Hins. cbn [mbind outcome_bind].
      exists (y :: l'). split; [done |]. split.
      * rewrite <- Hperm. apply Permutation_swap.
      * intros Hs. apply StronglySorted_inv in Hs as [Hs Hy_rest].
        constructor; [by apply Hsorted |].
        rewrite <- Hperm. constructor; [| done].
        exists ty, tx. repeat split; [done | done | lia].
Qed.

Lemma sort_newest_first_stamped (l : list Obj) :
  Forall (λ p, is_Some (stamp p)) l →
  ∃ l' : list Obj,
    sort_newest_first date_parse l = Ok l'
    ∧ Permutation l l'
    ∧ StronglySorted not_older l'.
Proof.
  induction 1 as [|x rest Hx Hrest IH].
  - exists []. repeat split; [done | constructor].
  - destruct IH as (sorted & Hsort & Hperm & Hs).
    cbn [sort_newest_first]. rewrite Hsort. cbn [mbind outcome_bind].
    assert (Hst : Forall (λ p, is_Some (stamp p)) sorted) by by rewrite <- Hperm.
    destruct (insert_sorted_stamped x sorted Hx Hst) as (l' & Hins & Hperm' & Hs').
    exists l'. split; [done |]. split; [| by apply Hs'].
    rewrite <- Hperm'. by constructor.
Qed.

Lemma JsMap_values_set (P : Obj → Prop) (m : JsMap.t) (k : string) (v : Obj) :
  Forall P (JsMap.values m) → P v → Forall P (JsMap.values (JsMap.set m k v)).
Proof.
  intros Hm Hv. induction m as [|[k' v'] m IH]; cbn [JsMap.set JsMap.values map].
  - by repeat constructor.
  - cbn [JsMap.values map snd] in Hm. apply Forall_cons in Hm as [Hv' Hm].
    destruct (String.eqb k' k); cbn [map snd]; constructor; try done.
    by apply IH.
Qed.

Lemma created_stamp (st : Store) (id : string) (now : Z) (input : Obj) :
  time_valid now = true →
  stamp (snd (createProduct st id now input)) = Some now.
Proof.
  intros Hnow. unfold stamp. cbn [createProduct snd]. read_literal.
  by rewrite Hnow.
Qed.

Lemma creations_stamped (history : list ProductCall) (st : Store) :
  forallb is_creation history = true →
  Forall (λ p, is_Some (stamp p)) (JsMap.values (products st)) →
  Forall (λ p, is_Some (stamp p)) (JsMap.values (products (replay history st))).
Proof.
  revert st. induction history as [|c history IH]; intros st Hh Hst; [done |].
  cbn [forallb] in Hh. apply andb_true_iff in Hh as [Hc Hh].
  cbn [replay fold_left]. apply IH; [done |].
  destruct c as [id now input | |]; try done.
  cbn [call createProduct fst products].
  apply JsMap_values_set; [done |].
  pose proof (created_stamp st id now input Hc) as H.
  cbn [createProduct snd] in H. by rewrite H.
Qed.

Lemma three_created (idA idB idC : string) (tA tB tC : Z) (A B C : Obj) :
  idA ≠ idB → idA ≠ idC → idB ≠ idC →
  JsMap.values
    (products (replay [CallCreate idA tA A; CallCreate idB tB B;
                       CallCreate idC tC C] emptyStore))
  = [created idA tA A; created idB tB B; created idC tC C].
Proof.
  intros Hab Hac Hbc.
  apply String.eqb_neq in Hab, Hac, Hbc.
  cbn [replay fold_left call createProduct fst products emptyStore JsMap.empty
       JsMap.set].
  rewrite Hab. cbn [JsMap.set]. rewrite Hac. cbn [JsMap.set]. rewrite Hbc.
  reflexivity.
Qed.

(** C4 (as amended): after any sequence of product creations (at clock
    readings that are time values) getProducts returns all stored
    products, each once, sorted by createdAt with the newest first; in
    particular, inserting A, then B, then C at strictly increasing clock
    readings yields the order C, B, A. *)
Theorem getProducts_newest_first :
  (∀ history : list ProductCall,
     forallb is_creation history = true →
     ∃ listed : list Obj,
       getProducts date_parse (replay history emptyStore) = Ok listed
       ∧ Permutation (JsMap.values (products (replay history emptyStore))) listed
       ∧ StronglySorted not_older listed)
  ∧ (∀ (idA idB idC : string) (tA tB tC : Z) (A B C : Obj),
       idA ≠ idB → idA ≠ idC → idB ≠ idC →
       time_valid tA = true → time_valid tB = true → time_valid tC = true →
       tA < tB → tB < tC →
       getProducts date_parse
         (replay [CallCreate idA tA A; CallCreate idB tB B;
                  CallCreate idC tC C] emptyStore)
       = Ok [created idC tC C; created idB tB B; created idA tA A]).
Proof.
  split.
  - intros history Hh. unfold getProducts.
    apply sort_newest_first_stamped.
    apply creations_stamped; [done |]. constructor.
  - intros idA idB idC tA tB tC A B C Hab Hac Hbc HA HB HC HAB HBC.
    unfold getProducts. rewrite three_created by done.
    pose proof (created_stamp emptyStore idA tA A HA) as SA.
    pose proof (created_stamp emptyStore idB tB B HB) as SB.
    pose proof (created_stamp emptyStore idC tC C HC) as SC.
    fold (created idA tA A) in SA. fold (created idB tB B) in SB.
    fold (created idC tC C) in SC.
    cbn [sort_newest_first insert_sorted mbind outcome_bind].
    rewrite (newest_first_stamped _ _ _ _ SB SC).
    cbn [mbind outcome_bind default from_option id].
    replace (tC - tB <=? 0) with false by (symmetry; apply Z.leb_gt; lia).
    cbn [insert_sorted mbind outcome_bind].
    rewrite (newest_first_stamped _ _ _ _ SA SC).
    cbn [mbind outcome_bind default from_option id].
    replace (tC - tA <=? 0) with false by (symmetry; apply Z.leb_gt; lia).
    cbn [insert_sorted mbind outcome_bind].
    rewrite (newest_first_stamped _ _ _ _ SA SB).
    cbn [mbind outcome_bind default from_option id].
    replace (tB - tA <=? 0) with false by (symmetry; apply Z.leb_gt; lia).
    reflexivity.
Qed.

End ListingProperties.

Lemma getProducts_newest_first_witness :
  names_of
    (getProducts (λ _, None)
       (replay [CallCreate "a" 1000 (named "A"); CallCreate "b" 1001 (named "B");
                CallCreate "c" 1002 (named "C")] emptyStore))
  = [VStr "C"; VStr "B"; VStr "A"].
Proof.
  rewrite (proj2 (getProducts_newest_first (λ _, None))
             "a" "b" "c" 1000 1001 1002 (named "A") (named "B") (named "C"))
    by done.
  reflexivity.
Defined.

(** Three products created within one millisecond are listed in the order
    of their insertion, oldest first. *)
Lemma getProducts_same_millisecond :
  names_of
    (getProducts (λ _, None)
       (replay [CallCreate "a" 1000 (named "A"); CallCreate "b" 1000 (named "B");
                CallCreate "c" 1000 (named "C")] emptyStore))
  = [VStr "A"; VStr "B"; VStr "C"].
Proof. vm_compute. reflexivity. Qed.

(** ** The product document *)

Lemma lines_not_nil (s : string) : ∃ l ls, lines s = l :: ls.
Proof.
  induction s as [|c s (l & ls & IH)]; [by eexists _, _ |].
  cbn [lines]. destruct (Ascii.eqb c newline); [by eexists _, _ |].
  rewrite IH. by eexists _, _.
Qed.

Lemma lines_app_newline (a b : string) :
  lines (a +:+ String newline b) = lines a ++ lines b.
Proof.
  induction a as [|x a IH].
  - reflexivity.
  - cbn [append lines]. rewrite IH.
    destruct (Ascii.eqb x newline); [done |].
    by destruct (lines_not_nil a) as (l & ls & ->).
Qed.

Lemma lines_app_free (a b : string) :
  char_in newline a = false →
  lines (a +:+ b)
  = match lines b with
    | l :: ls => (a +:+ l) :: ls
    | [] => [a]
    end.
Proof.
  induction a as [|x a IH]; intros Ha.
  - cbn [append]. by destruct (lines_not_nil b) as (l & ls & ->).
  - cbn [char_in] in Ha. apply orb_false_iff in Ha as [Hx Ha].
    cbn [append lines]. rewrite Ascii.eqb_sym, Hx. rewrite (IH Ha).
    by destruct (lines_not_nil b) as (l & ls & ->).
Qed.

Lemma ends_anchor_cons (c : ascii) (r : string) :
  ends_anchor r = true → ends_anchor (String c r) = true.
Proof. by destruct r. Qed.

Lemma document_tail_lines (today : string) :
  char_in newline today = false →
  lines (document_tail today)
  = [ "    <p>ProductAI - " +:+ today +:+ "</p>"; "  </div>"; "</body>"; "</html>" ].
Proof.
  intros Ht. unfold document_tail.
  rewrite (lines_app_free "    <p>ProductAI - ") by reflexivity.
  by rewrite (lines_app_free today) by done.
Qed.

Lemma without_date_line_document (head today : string) :
  char_in newline today = false →
  without_date_line (head +:+ String newline (document_tail today))
  = lines head ++ [ "  </div>"; "</body>"; "</html>" ].
Proof.
  intros Ht. unfold without_date_line.
  rewrite lines_app_newline, (document_tail_lines today Ht).
  rewrite rev_app_distr. cbn [rev app]. by rewrite rev_involutive.
Qed.

Lemma fmap_bind_ext {A B C : Type} (g : B → C) (m : Outcome A)
    (f1 f2 : A → Outcome B) :
  (∀ a, g <$> f1 a = g <$> f2 a) → g <$> (m ≫= f1) = g <$> (m ≫= f2).
Proof. intros H. destruct m as [a|e]; [apply H | done]. Qed.

Section DocumentProperties.

Variable string_gt_zero : string → bool.

(** The document is the template between its opening line feed and its
    closing white space. *)
Lemma document_trim (t : Labels) (dir code pname image price category desc
    benefitsHTML featuresHTML today : string) :
  trim (template_open
        +:+ document_head t dir code pname image price category desc
              benefitsHTML featuresHTML
        +:+ String newline (document_tail today)
        +:+ document_close)
  = document_head t dir code pname image price category desc
      benefitsHTML featuresHTML
    +:+ String newline (document_tail today).
Proof.
  rewrite <- (app_assoc_s (document_head _ _ _ _ _ _ _ _ _ _)).
  apply trim_template.
  - do 2 eexists. split; reflexivity.
  - apply ends_anchor_app, ends_anchor_cons. unfold document_tail.
    ends_anchor_tac.
  - reflexivity.
Qed.

(** C6: for every product and language, two runs of the product-document
    generator (at whatever dates, a date text being one line) end alike,
    and when they return documents these are the same text line for line
    once the footer line that carries the generation date is left out. *)
Theorem productDocument_deterministic (product : Obj) (lang : Language)
    (today1 today2 : string) :
  char_in newline today1 = false →
  char_in newline today2 = false →
  without_date_line <$> generateProductPDF string_gt_zero product lang today1
  = without_date_line <$> generateProductPDF string_gt_zero product lang today2.
Proof.
  intros H1 H2. unfold generateProductPDF.
  do 8 (apply fmap_bind_ext; intros ?).
  cbn [fmap outcome_fmap].
  rewrite !document_trim.
  rewrite (without_date_line_document _ today1 H1).
  rewrite (without_date_line_document _ today2 H2).
  reflexivity.
Qed.

End DocumentProperties.

Lemma productDocument_deterministic_witness :
  char_in newline "11/3/2026" = false
  ∧ char_in newline "12/25/2026" = false
  ∧ without_date_line <$> generateProductPDF (λ _, false) chair En "11/3/2026"
    = without_date_line <$> generateProductPDF (λ _, false) chair En "12/25/2026".
Proof.
  split; [reflexivity |]. split; [reflexivity |].
  apply (productDocument_deterministic (λ _, false) chair En "11/3/2026" "12/25/2026");
    reflexivity.
Defined.

(** The two documents of the witness do differ, in the date line only. *)
Example productDocument_dates_differ :
  generateProductPDF (λ _, false) chair En "11/3/2026"
  ≠ generateProductPDF (λ _, false) chair En "12/25/2026".
Proof. vm_compute. discriminate. Qed.

(** * Further properties of the store and the routes *)

(** ** Products: creation, update, deletion *)

Lemma JsMap_set_same (m : JsMap.t) (k : string) (v : Obj) :
  JsMap.set (JsMap.set m k v) k v = JsMap.set m k v.
Proof.
  induction m as [|[k' v'] m IH]; cbn [JsMap.set].
  - by rewrite String.eqb_refl.
  - destruct (String.eqb k' k) eqn:E; cbn [JsMap.set]; rewrite E; [done |].
    by rewrite IH.
Qed.

Lemma spread_lookup (target src : Obj) (k : string) :
  spread target src !! k
  = match src !! k with
    | Some v => Some v
    | None => target !! k
    end.
Proof. unfold spread. rewrite lookup_union. by destruct (src !! k), (target !! k). Qed.

(** X1: createProduct stores the record it returns under the generated
    id.  The record's id and createdAt are the generated ones whatever the
    input carries under those names; price and category are the input's
    unless these are null or undefined (an empty text is kept, unlike
    benefits and features); every other property of the input is taken
    over as it is.  No other product and no order is touched. *)
Theorem createProduct_then_getProduct (st : Store) (id : string) (now : Z)
    (insertProduct : Obj) :
  let st' := fst (createProduct st id now insertProduct) in
  let product := snd (createProduct st id now insertProduct) in
  getProduct st' id = Some product
  ∧ get product "id" = VStr id
  ∧ get product "createdAt" = VNum now
  ∧ (nullish (get insertProduct "price") = false →
     get product "price" = get insertProduct "price")
  ∧ (nullish (get insertProduct "price") = true → get product "price" = VNull)
  ∧ (nullish (get insertProduct "category") = false →
     get product "category" = get insertProduct "category")
  ∧ (nullish (get insertProduct "category") = true →
     get product "category" = VNull)
  ∧ (∀ k : string,
       k ∉ ["id"; "price"; "category"; "benefits"; "features"; "createdAt"] →
       product !! k = insertProduct !! k)
  ∧ (∀ other : string, other ≠ id → getProduct st' other = getProduct st other)
  ∧ orders st' = orders st.
Proof.
  cbn [createProduct fst snd]. unfold getProduct. cbn [products orders].
  split; [apply JsMap_get_set_eq |].
  split; [by read_literal |]. split; [by read_literal |].
  unfold js_coalesce.
  split; [intros H; read_literal; by rewrite H |].
  split; [intros H; read_literal; by rewrite H |].
  split; [intros H; read_literal; by rewrite H |].
  split; [intros H; read_literal; by rewrite H |].
  split.
  { intros k Hk. rewrite !not_elem_of_cons in Hk.
    destruct Hk as (? & ? & ? & ? & ? & ? & _).
    by rewrite !lookup_insert_ne by done. }
  split; [| done].
  intros other Hne. by apply JsMap_get_set_ne.
Qed.

(** X2: on a stored product, updateProduct returns and stores, under the
    same id, the record in which every property other than benefits and
    features is the update's when the update has it and the stored one
    otherwise; this holds for id and createdAt too, which an update can
    overwrite while the record stays under its old key.  No other product
    and no order is touched. *)
Theorem updateProduct_merges (st : Store) (id : string) (product updates : Obj) :
  getProduct st id = Some product →
  ∃ (st' : Store) (updated : Obj),
    updateProduct st id updates = (st', Some updated)
    ∧ getProduct st' id = Some updated
    ∧ (∀ k : string, k ≠ "benefits" → k ≠ "features" →
         updated !! k = match updates !! k with
                        | Some v => Some v
                        | None => product !! k
                        end)
    ∧ (∀ other : string, other ≠ id → getProduct st' other = getProduct st other)
    ∧ orders st' = orders st.
Proof.
  unfold getProduct, updateProduct. intros ->.
  eexists _, _. split; [reflexivity |]. cbn [products orders].
  split; [apply JsMap_get_set_eq |].
  split.
  { intros k Hb Hf. rewrite !lookup_insert_ne by done. apply spread_lookup. }
  split; [| done].
  intros other Hne. by apply JsMap_get_set_ne.
Qed.

Lemma updateProduct_merges_witness :
  getProduct chair_store "p1" = Some (created "p1" 1000 chair)
  ∧ ∃ (st' : Store) (updated : Obj),
      updateProduct chair_store "p1"
        (<["id" := VStr "p9"]> (<["price" := VStr "$45"]> ∅))
      = (st', Some updated)
      ∧ getProduct st' "p1" = Some updated
      ∧ updated !! "price" = Some (VStr "$45")
      ∧ updated !! "id" = Some (VStr "p9")
      ∧ updated !! "name" = Some (VStr "Chair").
Proof.
  split; [reflexivity |].
  destruct (updateProduct_merges chair_store "p1" (created "p1" 1000 chair)
              (<["id" := VStr "p9"]> (<["price" := VStr "$45"]> ∅))
              ltac:(reflexivity))
    as (st' & updated & Hu & Hg & Hk & _).
  exists st', updated. split; [exact Hu |]. split; [exact Hg |].
  rewrite !Hk by discriminate. repeat split; vm_compute; reflexivity.
Defined.

(** X3: updateProduct is idempotent: applying the same update a second
    time returns the same record and leaves the store as the first
    application left it. *)
Theorem updateProduct_idempotent (st : Store) (id : string) (updates : Obj) :
  updateProduct (fst (updateProduct st id updates)) id updates
  = updateProduct st id updates.
Proof.
  unfold updateProduct at 2 3.
  destruct (JsMap.get (products st) id) as [product|] eqn:E.
  - cbn [fst]. unfold updateProduct. cbn [products orders].
    rewrite JsMap_get_set_eq.
    set (updated := <["features" := _]> (<["benefits" := _]> (spread product updates))).
    assert (Hsame :
      <["features" := js_or (js_or (get updates "features") (get updated "features"))
                            empty_lists]>
        (<["benefits" := js_or (js_or (get updates "benefits") (get updated "benefits"))
                               empty_lists]>
           (spread updated updates))
      = updated).
    { assert (Hf : get updated "features"
                   = js_or (js_or (get updates "features") (get product "features"))
                           empty_lists) by (subst updated; by read_literal).
      assert (Hb : get updated "benefits"
                   = js_or (js_or (get updates "benefits") (get product "benefits"))
                           empty_lists) by (subst updated; by read_literal).
      assert (Hor : ∀ u p : Value,
                js_or (js_or u (js_or (js_or u p) empty_lists)) empty_lists
                = js_or (js_or u p) empty_lists).
      { intros u p. unfold js_or. destruct (truthy u) eqn:Eu; [by rewrite Eu |].
        destruct (truthy p) eqn:Ep; [by rewrite Ep |]. done. }
      apply map_eq. intros k.
      destruct (decide (k = "features")) as [-> | Hkf].
      { rewrite lookup_insert_eq, Hf, Hor. subst updated. by rewrite lookup_insert_eq. }
      rewrite lookup_insert_ne by done.
      destruct (decide (k = "benefits")) as [-> | Hkb].
      { rewrite lookup_insert_eq, Hb, Hor. subst updated.
        rewrite lookup_insert_ne by done. by rewrite lookup_insert_eq. }
      rewrite lookup_insert_ne by done.
      subst updated. rewrite spread_lookup.
      rewrite !lookup_insert_ne by done. rewrite spread_lookup.
      by destruct (updates !! k). }
    rewrite Hsame. by rewrite JsMap_set_same.
  - cbn [fst]. unfold updateProduct. by rewrite E.
Qed.

(** X4: deleteProduct removes the product and nothing else: the other
    products are as before, and so is every order, the orders that refer
    to the deleted product among them (there is no cascade). *)
Theorem deleteProduct_no_cascade (st : Store) (id : string) :
  let st' := fst (deleteProduct st id) in
  getProduct st' id = None
  ∧ (∀ other : string, other ≠ id → getProduct st' other = getProduct st other)
  ∧ orders st' = orders st
  ∧ (∀ order : string, getOrder st' order = getOrder st order)
  ∧ getOrdersByProduct st' id = getOrdersByProduct st id.
Proof.
  rewrite deleteProduct_result. cbn [fst]. unfold getProduct, getOrder,
    getOrdersByProduct. cbn [products orders].
  split; [apply JsMap_get_remove_eq |].
  split; [intros other Hne; by apply JsMap_get_remove_ne |].
  done.
Qed.

(** ** Orders: creation, update, deletion, lookup by product *)

Lemma JsMap_values_set_fresh (m : JsMap.t) (k : string) (v : Obj) :
  JsMap.get m k = None →
  JsMap.values (JsMap.set m k v) = JsMap.values m ++ [v].
Proof.
  unfold JsMap.values.
  induction m as [|[k' v'] m IH]; cbn [JsMap.set JsMap.get]; [done |].
  destruct (String.eqb k' k); [done |].
  intros H. cbn [map snd app]. f_equal. by apply IH.
Qed.

(** X5: createOrder stores the order it returns under the generated id,
    with the generated id and createdAt whatever the input carries under
    those names; an address, city, notes or script that is empty (absent,
    null or the empty text) is stored as null and any other is stored as
    given; the required fields are taken over as they are.  The other
    orders and the products are untouched, and the new order comes last
    among the stored orders when the id is fresh. *)
Theorem createOrder_then_getOrder (st : Store) (id : string) (now : Z)
    (insertOrder : Obj) :
  let st' := fst (createOrder st id now insertOrder) in
  let order := snd (createOrder st id now insertOrder) in
  getOrder st' id = Some order
  ∧ get order "id" = VStr id
  ∧ get order "createdAt" = VNum now
  ∧ (∀ k : string,
       k ∈ ["customerAddress"; "customerCity"; "notes"; "confirmationScript"] →
       get order k = if truthy (get insertOrder k) then get insertOrder k else VNull)
  ∧ (∀ k : string,
       k ∈ ["productId"; "customerName"; "customerPhone"] →
       order !! k = insertOrder !! k)
  ∧ (∀ other : string, other ≠ id → getOrder st' other = getOrder st other)
  ∧ products st' = products st
  ∧ (getOrder st id = None →
     JsMap.values (orders st') = JsMap.values (orders st) ++ [order]).
Proof.
  cbn [createOrder fst snd]. unfold getOrder. cbn [products orders].
  split; [apply JsMap_get_set_eq |].
  split; [by read_literal |]. split; [by read_literal |].
  split.
  { intros k Hk. rewrite !elem_of_cons, elem_of_nil in Hk.
    destruct Hk as [-> | [-> | [-> | [-> | []]]]]; by read_literal. }
  split.
  { intros k Hk. rewrite !elem_of_cons, elem_of_nil in Hk.
    destruct Hk as [-> | [-> | [-> | []]]]; by rewrite !lookup_insert_ne by done. }
  split; [intros other Hne; by apply JsMap_get_set_ne |].
  split; [done |].
  apply JsMap_values_set_fresh.
Qed.

(** X6: updateOrder on a stored order returns and stores, under the same
    id, the order in which every property is the update's when the update
    has it and the stored one otherwise (so a script that the update does
    not carry stays as generated, whatever else is edited); on an id that
    is not stored it returns the absent value, the route answers 404 and
    the store is unchanged.  The other orders and the products are
    untouched in both cases. *)
Theorem updateOrder_merges (st : Store) (id : string) (updates : Obj) :
  match getOrder st id with
  | Some order =>
      ∃ (st' : Store) (updated : Obj),
        updateOrder st id updates = (st', Some updated)
        ∧ patchOrder st id updates = (st', Json (VObj updated))
        ∧ getOrder st' id = Some updated
        ∧ (∀ k : string,
             updated !! k = match updates !! k with
                            | Some v => Some v
                            | None => order !! k
                            end)
        ∧ (∀ other : string, other ≠ id → getOrder st' other = getOrder st other)
        ∧ products st' = products st
  | None =>
      updateOrder st id updates = (st, None)
      ∧ patchOrder st id updates = (st, Error 404)
  end.
Proof.
  unfold getOrder, patchOrder, updateOrder.
  destruct (JsMap.get (orders st) id) as [order|]; [| done].
  eexists _, _. split; [reflexivity |]. split; [reflexivity |].
  cbn [products orders].
  split; [apply JsMap_get_set_eq |].
  split; [intros k; apply spread_lookup |].
  split; [| done].
  intros other Hne. by apply JsMap_get_set_ne.
Qed.

Lemma deleteOrder_result (st : Store) (id : string) :
  deleteOrder st id
  = (mkStore (products st) (JsMap.remove (orders st) id),
     JsMap.has (orders st) id).
Proof. reflexivity. Qed.

(** X7: deleteOrder answers whether the order was stored, and the route
    answers success exactly then and 404 otherwise; afterwards the order
    is gone, a second deletion answers false, and the other orders and
    the products are as before. *)
Theorem deleteOrder_removes (st : Store) (id : string) :
  let st' := fst (deleteOrder st id) in
  snd (deleteOrder st id) = is_some (getOrder st id)
  ∧ deleteOrderRoute st id
    = (st', if is_some (getOrder st id)
            then Json (VObj (<["success" := VBool true]> ∅))
            else Error 404)
  ∧ getOrder st' id = None
  ∧ snd (deleteOrder st' id) = false
  ∧ (∀ other : string, other ≠ id → getOrder st' other = getOrder st other)
  ∧ products st' = products st.
Proof.
  unfold deleteOrderRoute. rewrite !deleteOrder_result. cbn [fst snd].
  unfold getOrder, JsMap.has, is_some. cbn [products orders].
  rewrite JsMap_get_remove_eq.
  split; [done |].
  split; [by destruct (JsMap.get (orders st) id) |].
  split; [done |]. split; [done |].
  split; [| done].
  intros other Hne. by apply JsMap_get_remove_ne.
Qed.

Lemma getOrdersByProduct_filter (st : Store) (productId : string) :
  getOrdersByProduct st productId
  = List.filter (refers_to productId) (JsMap.values (orders st)).
Proof. reflexivity. Qed.

(** X8: getOrdersByProduct lists exactly the stored orders whose productId
    is the given text, in the order of their insertion; an order created
    under a fresh id joins the list of its product at the end and no other
    list, and the lists do not depend on the products, so the orders of a
    deleted product stay listed. *)
Theorem getOrdersByProduct_lists (st : Store) (productId : string) :
  (∀ order : Obj,
     In order (getOrdersByProduct st productId)
     ↔ In order (JsMap.values (orders st))
       ∧ get order "productId" = VStr productId)
  ∧ (∀ (id : string) (now : Z) (insertOrder : Obj),
       getOrder st id = None →
       getOrdersByProduct (fst (createOrder st id now insertOrder)) productId
       = getOrdersByProduct st productId
         ++ (if refers_to productId insertOrder
             then [snd (createOrder st id now insertOrder)]
             else []))
  ∧ (∀ id : string,
       getOrdersByProduct (fst (deleteProduct st id)) productId
       = getOrdersByProduct st productId).
Proof.
  split; [| split].
  - intros order. rewrite getOrdersByProduct_filter, filter_In.
    unfold refers_to. split; intros [Hin H]; split; try done.
    + destruct (get order "productId") as [| | | |a| | |]; try done.
      by apply String.eqb_eq in H as ->.
    + rewrite H. apply String.eqb_refl.
  - intros id now input Hfresh. rewrite !getOrdersByProduct_filter.
    cbn [createOrder fst snd orders].
    rewrite (JsMap_values_set_fresh _ _ _ Hfresh), List.filter_app.
    f_equal. cbn [List.filter].
    replace (refers_to productId (<["createdAt" := _]> _))
      with (refers_to productId input); [by destruct (refers_to productId input) |].
    unfold refers_to. by read_literal.
  - intros id. by rewrite deleteProduct_result.
Qed.

(** ** Listings keep ties in insertion order *)

Section ListingStability.

Variable date_parse : string → option Z.

Lemma insert_sorted_keeps_ties (x : Obj) (l : list Obj) :
  is_Some (stamp x) →
  Forall (λ p, is_Some (stamp p)) l →
  ∃ l' : list Obj,
    insert_sorted date_parse x l = Ok l'
    ∧ ∀ t : Z, List.filter (stamped_at t) l' = List.filter (stamped_at t) (x :: l).
Proof.
  intros [tx Hx] Hl. induction Hl as [|y rest [ty Hy] Hrest IH].
  - by exists [x].
  - destruct IH as (l' & Hins & Hties).
    cbn [insert_sorted]. rewrite (newest_first_stamped date_parse x y tx ty Hx Hy).
    cbn [mbind outcome_bind default from_option id].
    destruct (ty - tx <=? 0) eqn:E; [by eexists |].
    apply Z.leb_gt in E. rewrite Hins. cbn [mbind outcome_bind].
    exists (y :: l'). split; [done |].
    intros t. cbn [List.filter]. rewrite Hties. cbn [List.filter].
    unfold stamped_at. rewrite Hx, Hy.
    destruct (ty =? t) eqn:Ey; [| done].
    destruct (tx =? t) eqn:Ex; [| done].
    apply Z.eqb_eq in Ey, Ex. lia.
Qed.

Lemma sort_newest_first_keeps_ties (l : list Obj) :
  Forall (λ p, is_Some (stamp p)) l →
  ∃ l' : list Obj,
    sort_newest_first date_parse l = Ok l'
    ∧ Permutation l l'
    ∧ StronglySorted not_older l'
    ∧ ∀ t : Z, List.filter (stamped_at t) l' = List.filter (stamped_at t) l.
Proof.
  induction 1 as [|x rest Hx Hrest IH].
  - exists []. repeat split; [done | constructor].
  - destruct IH as (sorted & Hsort & Hperm & Hs & Hties).
    cbn [sort_newest_first]. rewrite Hsort. cbn [mbind outcome_bind].
    assert (Hst : Forall (λ p, is_Some (stamp p)) sorted) by by rewrite <- Hperm.
    destruct (insert_sorted_stamped date_parse x sorted Hx Hst)
      as (l' & Hins & Hperm' & Hs').
    destruct (insert_sorted_keeps_ties x sorted Hx Hst) as (l'' & Hins' & Hties').
    rewrite Hins in Hins'. injection Hins' as <-.
    exists l'. split; [done |]. split; [rewrite <- Hperm'; by constructor |].
    split; [by apply Hs' |].
    intros t. rewrite Hties'. cbn [List.filter]. by rewrite Hties.
Qed.

(** X9: when every stored order carries a time value as createdAt (which
    createOrder at a clock reading that is a time value keeps so),
    getOrders returns all stored orders, each once, newest first, and
    orders with the same createdAt stay in the order of their insertion:
    the sort is stable. *)
Theorem getOrders_newest_first_stable :
  (∀ (st : Store) (id : string) (now : Z) (insertOrder : Obj),
     time_valid now = true →
     Forall (λ p, is_Some (stamp p)) (JsMap.values (orders st)) →
     Forall (λ p, is_Some (stamp p))
       (JsMap.values (orders (fst (createOrder st id now insertOrder)))))
  ∧ (∀ st : Store,
       Forall (λ p, is_Some (stamp p)) (JsMap.values (orders st)) →
       ∃ listed : list Obj,
         getOrders date_parse st = Ok listed
         ∧ Permutation (JsMap.values (orders st)) listed
         ∧ StronglySorted not_older listed
         ∧ ∀ t : Z,
             List.filter (stamped_at t) listed
             = List.filter (stamped_at t) (JsMap.values (orders st))).
Proof.
  split.
  - intros st id now input Hnow Hst. cbn [createOrder fst orders].
    apply JsMap_values_set; [done |].
    unfold stamp. read_literal. by rewrite Hnow.
  - intros st Hst. unfold getOrders. by apply sort_newest_first_keeps_ties.
Qed.

End ListingStability.

Lemma getOrders_newest_first_stable_witness :
  let st :=
    fst (createOrder
           (fst (createOrder
                   (fst (createOrder emptyStore "o1" 1000 (named "first")))
                   "o2" 2000 (named "second")))
           "o3" 1000 (named "third")) in
  Forall (λ p, is_Some (stamp p)) (JsMap.values (orders st))
  ∧ names_of (getOrders (λ _, None) st)
    = [VStr "second"; VStr "first"; VStr "third"]
  ∧ ∃ listed : list Obj,
      getOrders (λ _, None) st = Ok listed
      ∧ List.filter (stamped_at 1000) listed
        = List.filter (stamped_at 1000) (JsMap.values (orders st)).
Proof.
  assert (H0 : Forall (λ p, is_Some (stamp p)) (JsMap.values (orders emptyStore)))
    by constructor.
  pose proof (proj1 (getOrders_newest_first_stable (λ _, None))) as Hkeep.
  pose proof (Hkeep emptyStore "o1" 1000 (named "first") eq_refl H0) as H1.
  pose proof (Hkeep _ "o2" 2000 (named "second") eq_refl H1) as H2.
  pose proof (Hkeep _ "o3" 1000 (named "third") eq_refl H2) as H3.
  split; [exact H3 |]. split; [vm_compute; reflexivity |].
  destruct (proj2 (getOrders_newest_first_stable (λ _, None)) _ H3)
    as (listed & Hl & _ & _ & Ht).
  exists listed. split; [exact Hl | apply Ht].
Defined.

(** ** Users *)

Lemma find_app_s {A : Type} (f : A → bool) (l l' : list A) :
  List.find f (l ++ l')
  = match List.find f l with
    | Some x => Some x
    | None => List.find f l'
    end.
Proof.
  induction l as [|x l IH]; [done |]. cbn [app List.find].
  by destruct (f x).
Qed.

(** X10: createUser stores the user under the generated id, with that id
    and otherwise the input's properties, and checks nothing: a username
    that is already taken is accepted.  getUserByUsername answers with the
    earliest created user of that name, so after createUser under a fresh
    id it answers as before when the name was taken, and with the new
    user when the name was free and is the new user's. *)
Theorem createUser_then_lookup (users : JsMap.t) (id : string) (insertUser : Obj) :
  let users' := fst (createUser users id insertUser) in
  let user := snd (createUser users id insertUser) in
  getUser users' id = Some user
  ∧ get user "id" = VStr id
  ∧ (∀ k : string, k ≠ "id" → user !! k = insertUser !! k)
  ∧ (∀ other : string, other ≠ id → getUser users' other = getUser users other)
  ∧ (getUser users id = None →
     ∀ username : string,
       getUserByUsername users' username
       = match getUserByUsername users username with
         | Some first => Some first
         | None => if has_username username insertUser then Some user else None
         end).
Proof.
  cbn [createUser fst snd]. unfold getUser.
  split; [apply JsMap_get_set_eq |].
  split; [by read_literal |].
  split; [intros k Hk; by rewrite lookup_insert_ne |].
  split; [intros other Hne; by apply JsMap_get_set_ne |].
  intros Hfresh username. unfold getUserByUsername.
  rewrite (JsMap_values_set_fresh _ _ _ Hfresh), find_app_s.
  destruct (find (has_username username) (JsMap.values users)); [done |].
  cbn [List.find]. unfold has_username. by read_literal.
Qed.

(** ** Code fences around a model reply *)

Lemma trimStart_all_space_bounded (s : string) (n : nat) (lead : string) :
  (String.length lead ≤ n)%nat →
  all_space lead = true →
  trimStart (lead +:+ s) = trimStart s.
Proof.
  revert lead. induction n as [n IH] using lt_wf_ind. intros lead Hlen Hlead.
  destruct lead as [|x l1]; [done |].
  cbn [String.length] in Hlen. cbn [all_space] in Hlead. cbn [append trimStart].
  destruct (ascii_space x).
  { apply (IH (String.length l1)); [lia | done | done]. }
  destruct l1 as [|y l2]; [done |].
  cbn [String.length] in Hlen. cbn [append].
  destruct (two_byte_space x y).
  { apply (IH (String.length l2)); [lia | done | done]. }
  destruct l2 as [|z l3]; [done |].
  cbn [String.length] in Hlen. cbn [append].
  destruct (three_byte_space x y z); [| done].
  apply (IH (String.length l3)); [lia | done | done].
Qed.

Lemma trim_between_spaces (lead core trail : string) :
  all_space lead = true →
  (∃ c m, core = String c m ∧ no_space_lead c = true) →
  ends_anchor core = true →
  all_space trail = true →
  trim (lead +:+ core +:+ trail) = core.
Proof.
  intros Hlead (c & m & Hcore & Hc) Hend Htrail. unfold trim.
  rewrite (trimStart_all_space_bounded _ (String.length lead) lead) by done.
  assert (Hstart : trimStart (core +:+ trail) = core +:+ trail).
  { rewrite Hcore. cbn [append]. by apply trimStart_no_lead. }
  rewrite Hstart.
  destruct (ends_anchor_split core Hend) as (m' & c' & Hm & Hc').
  rewrite Hm at 1. rewrite app_assoc_s. cbn [append].
  rewrite (trimEnd_app_anchor c' m' trail Hc').
  by rewrite (trimEnd_all_space trail Htrail).
Qed.

Lemma skip_word_tag (tag rest : string) :
  all_word tag = true →
  skip_word (tag +:+ String newline rest) = String newline rest.
Proof.
  induction tag as [|c tag IH]; [done |].
  cbn [all_word append skip_word]. intros [-> H]%andb_true_iff. by apply IH.
Qed.

Lemma length_app_s (a b : string) :
  String.length (a +:+ b) = (String.length a + String.length b)%nat.
Proof. induction a as [|x a IH]; [done |]. cbn [append String.length]. by rewrite IH. Qed.

Lemma prefix_app_self (a b : string) : String.prefix a (a +:+ b) = true.
Proof.
  induction a as [|x a IH]; [apply prefix_empty |].
  cbn [append String.prefix]. by destruct (ascii_dec x x).
Qed.

Lemma strip_fence_close_body (body : string) :
  strip_fence_close (body +:+ String newline "```") = body.
Proof.
  induction body as [|c body IH]; [done |].
  cbn [append strip_fence_close]. rewrite IH.
  assert (Hlen : (5 ≤ String.length (String c (body +:+ String newline "```")))%nat).
  { cbn [String.length]. rewrite length_app_s. cbn [String.length]. lia. }
  destruct (String.eqb _ (String newline "```")) eqn:E1.
  { apply String.eqb_eq in E1. rewrite E1 in Hlen. cbn [String.length] in Hlen. lia. }
  destruct (String.eqb _ "```") eqn:E2; [| done].
  apply String.eqb_eq in E2. rewrite E2 in Hlen. cbn [String.length] in Hlen. lia.
Qed.

(** X11: cleaning a reply that is a fenced block (three backticks, a tag of
    word characters such as json, a line feed, the body, a line feed and
    three backticks, with any white space around the block) yields the
    body, character for character, whatever the body holds; a reply that
    does not start with three backticks once trimmed is only trimmed. *)
Theorem cleanContent_fenced (lead trail tag body : string) :
  all_space lead = true →
  all_space trail = true →
  all_word tag = true →
  cleanContent (lead +:+ ("```" +:+ tag +:+ String newline body
                          +:+ String newline "```") +:+ trail)
  = body
  ∧ ∀ content : string,
      String.prefix "```" (trim content) = false →
      cleanContent content = trim content.
Proof.
  intros Hlead Htrail Htag. split.
  - unfold cleanContent.
    rewrite (trim_between_spaces lead _ trail Hlead); [| | | done].
    + cbn zeta. unfold strip_fence_open. rewrite !prefix_app_self.
      cbn [append]. rewrite (skip_word_tag tag _ Htag). cbn [skip_newline].
      replace (Ascii.eqb newline newline) with true by (symmetry; apply Ascii.eqb_refl).
      apply strip_fence_close_body.
    + do 2 eexists. split; reflexivity.
    + cbn [append]. do 3 apply ends_anchor_cons.
      apply ends_anchor_app, ends_anchor_cons, ends_anchor_app. reflexivity.
  - intros content H. unfold cleanContent. cbn zeta. by rewrite H.
Qed.

Lemma cleanContent_fenced_witness :
  all_space "  " = true
  ∧ all_space (String newline "") = true
  ∧ all_word "json" = true
  ∧ cleanContent ("  " +:+ ("```" +:+ "json" +:+ String newline "{ }"
                             +:+ String newline "```") +:+ String newline "")
    = "{ }".
Proof.
  split; [reflexivity |]. split; [reflexivity |]. split; [reflexivity |].
  apply (cleanContent_fenced "  " (String newline "") "json" "{ }"); reflexivity.
Defined.

(** ** POST /api/orders: what it checks, reads and writes *)

Lemma postOrder_created (st : Store) (id : string) (now : Z) (input : Obj) :
  ∃ order : Obj,
    createOrder st id now input
    = (mkStore (products st) (JsMap.set (orders st) id order), order).
Proof. by eexists. Qed.

(** X12: the order route writes to the store only when it answers with an
    order.  A request in which productId, customerName or customerPhone
    is missing or empty is answered 400; one whose productId is the id of
    no stored product (or is not a text) is answered 404; and every
    answer that is an error leaves the store as it was.  An answer that
    is not an error is the new order, stored under the generated id, with
    the products and the other orders untouched. *)
Theorem postOrder_writes_only_on_success (st : Store) (id : string) (now : Z)
    (body : Obj) :
  (required_present body = false → postOrder st id now body = (st, Error 400))
  ∧ (required_present body = true →
     lookupProduct st (get body "productId") = None →
     postOrder st id now body = (st, Error 404))
  ∧ match snd (postOrder st id now body) with
    | Error code => fst (postOrder st id now body) = st
    | Json answer =>
        ∃ order : Obj,
          answer = VObj order
          ∧ is_Some (lookupProduct st (get body "productId"))
          ∧ products (fst (postOrder st id now body)) = products st
          ∧ orders (fst (postOrder st id now body)) = JsMap.set (orders st) id order
    end.
Proof.
  unfold postOrder, required_present.
  destruct (truthy (get body "productId")), (truthy (get body "customerName")),
    (truthy (get body "customerPhone")); cbn [negb orb andb fst snd]; try done.
  destruct (lookupProduct st (get body "productId")) as [product|];
    cbn [fst snd]; [| done].
  split; [done |]. split; [done |].
  destruct (generateConfirmationScript product _ _) as [cs|]; cbn [fst snd]; [| done].
  match goal with
  | |- context [createOrder ?s ?i ?n ?input] =>
      destruct (postOrder_created s i n input) as (order & ->)
  end.
  cbn [fst snd products orders]. exists order. by repeat split.
Qed.

Lemma postOrder_writes_only_on_success_witness :
  required_present (<["customerName" := VStr "Ali"]> ∅) = false
  ∧ postOrder chair_store "o1" 2000 (<["customerName" := VStr "Ali"]> ∅)
    = (chair_store, Error 400).
Proof.
  split; [reflexivity |].
  apply (proj1 (postOrder_writes_only_on_success chair_store "o1" 2000
                  (<["customerName" := VStr "Ali"]> ∅))).
  reflexivity.
Defined.

(** X13: the order route reads eight properties of the request body and
    nothing else: a status, an id, a createdAt or a confirmationScript in
    the body changes neither the answer nor the store (the status of the
    new order is pending whatever the body says). *)
Theorem postOrder_ignores_other_fields (st : Store) (id : string) (now : Z)
    (body : Obj) (k : string) (v : Value) :
  k ∉ order_fields →
  postOrder st id now (<[k := v]> body) = postOrder st id now body.
Proof.
  unfold order_fields. rewrite !not_elem_of_cons.
  intros (? & ? & ? & ? & ? & ? & ? & ? & _).
  unfold postOrder. by rewrite !get_insert_ne by done.
Qed.

Lemma postOrder_ignores_other_fields_witness :
  ("status" ∉ order_fields)
  ∧ postOrder chair_store "o1" 2000
      (<["status" := VStr "delivered"]> (order_request (VStr "en")))
    = postOrder chair_store "o1" 2000 (order_request (VStr "en")).
Proof.
  assert (H : "status" ∉ order_fields).
  { unfold order_fields. rewrite !not_elem_of_cons. repeat split; try discriminate.
    apply not_elem_of_nil. }
  split; [exact H |].
  exact (postOrder_ignores_other_fields chair_store "o1" 2000
           (order_request (VStr "en")) "status" (VStr "delivered") H).
Defined.

(** ** What the confirmation script carries *)

Lemma includes_self (s : string) : includes s s = true.
Proof.
  assert (H : String.prefix s s = true).
  { induction s as [|c s IH]; [done |]. cbn [String.prefix].
    by destruct (ascii_dec c c). }
  destruct s; cbn [includes]; by rewrite H.
Qed.

Lemma prefix_app_l (n a b : string) :
  String.prefix n a = true → String.prefix n (a +:+ b) = true.
Proof.
  revert a. induction n as [|y n IH]; intros a.
  - intros _. apply prefix_empty.
  - destruct a as [|x a]; [done |]. cbn [append String.prefix].
    destruct (ascii_dec y x); [apply IH | done].
Qed.

Lemma includes_app_r (n a b : string) :
  includes b n = true → includes (a +:+ b) n = true.
Proof.
  intros Hb. induction a as [|x a IH]; [done |].
  cbn [append includes]. rewrite IH. apply orb_true_r.
Qed.

Lemma includes_app_l (n a b : string) :
  includes a n = true → includes (a +:+ b) n = true.
Proof.
  induction a as [|x a IH].
  - cbn [includes]. rewrite orb_false_r. destruct n; [| done].
    intros _. destruct b; cbn [append includes]; by rewrite ?prefix_empty.
  - cbn [append includes]. intros [H | H]%orb_true_iff.
    + pose proof (prefix_app_l n (String x a) b H) as H'. cbn [append] in H'.
      by rewrite H'.
    + rewrite (IH H). apply orb_true_r.
Qed.

Ltac occurs_in_template :=
  first [ apply includes_self
        | apply includes_app_l; apply includes_self
        | apply includes_app_r; occurs_in_template ].

Lemma script_ar_carries (product : Obj) (customer : Customer) (s : string) :
  script_ar product customer = Ok s →
  ∃ name pname qty desc : string,
    to_string (customerName customer) = Ok name
    ∧ to_string (get product "name") = Ok pname
    ∧ to_string (quantity customer) = Ok qty
    ∧ get_prop (get product "descriptions") "ar" ≫= to_string = Ok desc
    ∧ includes s name = true ∧ includes s pname = true
    ∧ includes s qty = true ∧ includes s desc = true.
Proof.
  unfold script_ar. intros H.
  apply outcome_bind_inv in H as (name & Hname & H).
  apply outcome_bind_inv in H as (pname & Hpname & H).
  apply outcome_bind_inv in H as (qty & Hqty & H).
  apply outcome_bind_inv in H as (price & _ & H).
  apply outcome_bind_inv in H as (description & Hd & H).
  apply outcome_bind_inv in H as (desc & Hdesc & H).
  apply outcome_bind_inv in H as (city & _ & H).
  apply outcome_bind_inv in H as (address & _ & H).
  rewrite script_ar_trim in H. injection H as <-.
  exists name, pname, qty, desc. rewrite Hd. cbn [mbind outcome_bind].
  do 4 (split; [done |]).
  unfold script_ar_text. repeat split; occurs_in_template.
Qed.

Lemma script_en_carries (product : Obj) (customer : Customer) (s : string) :
  script_en product customer = Ok s →
  ∃ name pname qty desc : string,
    to_string (customerName customer) = Ok name
    ∧ to_string (get product "name") = Ok pname
    ∧ to_string (quantity customer) = Ok qty
    ∧ get_prop (get product "descriptions") "en" ≫= to_string = Ok desc
    ∧ includes s name = true ∧ includes s pname = true
    ∧ includes s qty = true ∧ includes s desc = true.
Proof.
  unfold script_en. intros H.
  apply outcome_bind_inv in H as (name & Hname & H).
  apply outcome_bind_inv in H as (pname & Hpname & H).
  apply outcome_bind_inv in H as (qty & Hqty & H).
  apply outcome_bind_inv in H as (price & _ & H).
  apply outcome_bind_inv in H as (description & Hd & H).
  apply outcome_bind_inv in H as (desc & Hdesc & H).
  apply outcome_bind_inv in H as (city & _ & H).
  apply outcome_bind_inv in H as (address & _ & H).
  rewrite script_en_trim in H. injection H as <-.
  exists name, pname, qty, desc. rewrite Hd. cbn [mbind outcome_bind].
  do 4 (split; [done |]).
  unfold script_en_text. repeat split; occurs_in_template.
Qed.

Lemma script_fr_carries (product : Obj) (customer : Customer) (s : string) :
  script_fr product customer = Ok s →
  ∃ name pname qty desc : string,
    to_string (customerName customer) = Ok name
    ∧ to_string (get product "name") = Ok pname
    ∧ to_string (quantity customer) = Ok qty
    ∧ get_prop (get product "descriptions") "fr" ≫= to_string = Ok desc
    ∧ includes s name = true ∧ includes s pname = true
    ∧ includes s qty = true ∧ includes s desc = true.
Proof.
  unfold script_fr. intros H.
  apply outcome_bind_inv in H as (name & Hname & H).
  apply outcome_bind_inv in H as (pname & Hpname & H).
  apply outcome_bind_inv in H as (qty & Hqty & H).
  apply outcome_bind_inv in H as (price & _ & H).
  apply outcome_bind_inv in H as (description & Hd & H).
  apply outcome_bind_inv in H as (desc & Hdesc & H).
  apply outcome_bind_inv in H as (city & _ & H).
  apply outcome_bind_inv in H as (address & _ & H).
  rewrite script_fr_trim in H. injection H as <-.
  exists name, pname, qty, desc. rewrite Hd. cbn [mbind outcome_bind].
  do 4 (split; [done |]).
  unfold script_fr_text. repeat split; occurs_in_template.
Qed.

(** X14: in each of the three languages, a script that the generator
    returns contains, as they convert to text, the customer's name, the
    product's name, the quantity, and the product's description in that
    language, character for character. *)
Theorem confirmation_script_carries (product : Obj) (customer : Customer)
    (lang : Language) (v : Value) :
  generateConfirmationScript product customer (VStr (lang_code lang)) = Ok v →
  ∃ script name pname qty desc : string,
    v = VStr script
    ∧ to_string (customerName customer) = Ok name
    ∧ to_string (get product "name") = Ok pname
    ∧ to_string (quantity customer) = Ok qty
    ∧ get_prop (get product "descriptions") (lang_code lang) ≫= to_string = Ok desc
    ∧ includes script name = true ∧ includes script pname = true
    ∧ includes script qty = true ∧ includes script desc = true.
Proof.
  unfold generateConfirmationScript. intros H.
  apply outcome_bind_inv in H as (ar & Har & H).
  apply outcome_bind_inv in H as (en & Hen & H).
  apply outcome_bind_inv in H as (fr & Hfr & H).
  cbn [to_string mbind outcome_bind] in H. injection H as <-.
  unfold get_computed.
  destruct lang; cbn [lang_code]; read_literal.
  - destruct (script_ar_carries _ _ _ Har) as (n & p & q & d & ?).
    by exists ar, n, p, q, d.
  - destruct (script_en_carries _ _ _ Hen) as (n & p & q & d & ?).
    by exists en, n, p, q, d.
  - destruct (script_fr_carries _ _ _ Hfr) as (n & p & q & d & ?).
    by exists fr, n, p, q, d.
Qed.

Lemma confirmation_script_carries_witness :
  ∃ script : string,
    generateConfirmationScript chair (ali (VStr "555")) (VStr "fr") = Ok (VStr script)
    ∧ includes script "Une chaise en bois." = true.
Proof.
  destruct (is_some_inv
              (match generateConfirmationScript chair (ali (VStr "555")) (VStr "fr") with
               | Ok v => Some v
               | Throw _ => None
               end) ltac:(vm_compute; reflexivity)) as [v Hv].
  destruct (generateConfirmationScript chair (ali (VStr "555")) (VStr "fr"))
    as [v'|] eqn:E; [| discriminate Hv].
  destruct (confirmation_script_carries chair (ali (VStr "555")) Fr v' E)
    as (script & n & p & q & d & -> & _ & _ & _ & Hd & _ & _ & _ & Hin).
  exists script. split; [reflexivity |].
  vm_compute in Hd. injection Hd as <-. exact Hin.
Defined.

(** ** POST /api/products/analyze, from the parsed reply on *)

Lemma js_or_truthy_default (a b : Value) :
  truthy b = true → truthy (js_or a b) = true.
Proof. intros Hb. unfold js_or. by destruct (truthy a) eqn:E. Qed.

Lemma js_or_null (a : Value) :
  js_or a VNull = VNull ∨ truthy (js_or a VNull) = true.
Proof. unfold js_or. destruct (truthy a) eqn:E; [by right | by left]. Qed.

Lemma js_coalesce_null_or_truthy (a : Value) :
  a = VNull ∨ truthy a = true →
  js_coalesce a VNull = VNull ∨ truthy (js_coalesce a VNull) = true.
Proof. intros [-> | H]; [by left |]. right. by destruct a. Qed.

Lemma analyzeProduct_input (st : Store) (id : string) (now : Z) (url : string)
    (name descriptions benefits features price category : Value) :
  ∃ product : Obj,
    createProduct st id now
      (<["category" := js_or category VNull]>
       (<["price" := js_or price VNull]>
       (<["features" := js_or features empty_lists]>
       (<["benefits" := js_or benefits empty_lists]>
       (<["descriptions" := descriptions]>
       (<["imageUrl" := VStr url]>
       (<["name" := js_or name (VStr "Unnamed Product")]> ∅)))))))
    = (mkStore (JsMap.set (products st) id product) (orders st), product)
    ∧ get product "id" = VStr id
    ∧ get product "imageUrl" = VStr url
    ∧ get product "createdAt" = VNum now
    ∧ get product "name" = js_or name (VStr "Unnamed Product")
    ∧ get product "descriptions" = descriptions
    ∧ lists_kept product
    ∧ (get product "price" = VNull ∨ truthy (get product "price") = true)
    ∧ (get product "category" = VNull ∨ truthy (get product "category") = true).
Proof.
  eexists. split; [reflexivity |].
  unfold lists_kept.
  rewrite ?get_insert_eq, ?get_insert_ne by done.
  repeat (rewrite get_insert_eq || rewrite get_insert_ne by done).
  repeat split.
  - rewrite js_or_truthy; apply js_or_default_truthy.
  - rewrite js_or_truthy; apply js_or_default_truthy.
  - apply js_coalesce_null_or_truthy, js_or_null.
  - apply js_coalesce_null_or_truthy, js_or_null.
Qed.

(** X15: once the reply of the model has been parsed, the analyze route
    fails only on the reply [null] (answer 500, nothing stored); every
    other JSON value, an object or not, creates a product.  That product
    carries the generated id, the upload path and the creation instant; its
    name is never empty ("Unnamed Product" stands in for a missing or
    empty one); its benefits and features are never missing; its price
    and its category are either null or non-empty; and its descriptions
    are whatever the reply held under that name, unchecked (undefined
    when the reply had none). *)
Theorem analyzeProduct_creates_unless_null (st : Store) (id : string) (now : Z)
    (url : string) (analysis : Value) :
  if nullish analysis
  then analyzeProduct st id now url analysis = (st, Error 500)
  else
    ∃ product : Obj,
      analyzeProduct st id now url analysis
      = (mkStore (JsMap.set (products st) id product) (orders st),
         Json (VObj product))
      ∧ get product "id" = VStr id
      ∧ get product "imageUrl" = VStr url
      ∧ get product "createdAt" = VNum now
      ∧ truthy (get product "name") = true
      ∧ (∀ name : Value, get_prop analysis "name" = Ok name →
         truthy name = false → get product "name" = VStr "Unnamed Product")
      ∧ get_prop analysis "descriptions" = Ok (get product "descriptions")
      ∧ lists_kept product
      ∧ (get product "price" = VNull ∨ truthy (get product "price") = true)
      ∧ (get product "category" = VNull ∨ truthy (get product "category") = true).
Proof.
  assert (Hgen : ∀ name descriptions benefits features price category : Value,
    get_prop analysis "name" = Ok name →
    get_prop analysis "descriptions" = Ok descriptions →
    get_prop analysis "benefits" = Ok benefits →
    get_prop analysis "features" = Ok features →
    get_prop analysis "price" = Ok price →
    get_prop analysis "category" = Ok category →
    ∃ product : Obj,
      analyzeProduct st id now url analysis
      = (mkStore (JsMap.set (products st) id product) (orders st),
         Json (VObj product))
      ∧ get product "id" = VStr id
      ∧ get product "imageUrl" = VStr url
      ∧ get product "createdAt" = VNum now
      ∧ truthy (get product "name") = true
      ∧ (∀ name : Value, get_prop analysis "name" = Ok name →
         truthy name = false → get product "name" = VStr "Unnamed Product")
      ∧ get_prop analysis "descriptions" = Ok (get product "descriptions")
      ∧ lists_kept product
      ∧ (get product "price" = VNull ∨ truthy (get product "price") = true)
      ∧ (get product "category" = VNull ∨ truthy (get product "category") = true)).
  { intros name descriptions benefits features price category Hn Hd Hb Hf Hp Hc.
    destruct (analyzeProduct_input st id now url name descriptions benefits
                features price category)
      as (product & Hcreate & Hid & Hurl & Hat & Hname & Hdesc & Hlists & Hprice & Hcat).
    exists product. unfold analyzeProduct.
    rewrite Hn, Hd, Hb, Hf, Hp, Hc. cbn [mbind outcome_bind].
    rewrite Hcreate.
    split; [reflexivity |]. do 3 (split; [assumption |]).
    split; [rewrite Hname; by apply js_or_truthy_default |].
    split; [intros name' [= <-] Hfalsy; rewrite Hname; by apply js_or_falsy |].
    split; [by rewrite Hdesc |]. done. }
  destruct analysis as [| |b|n|s|l|o|f]; cbn [nullish]; try reflexivity.
  all: eapply Hgen; reflexivity.
Qed.

(** ** The order document *)

Lemma prefix_split (n s : string) :
  String.prefix n s = true → ∃ b, s = n +:+ b.
Proof.
  revert s. induction n as [|y n IH]; intros s.
  - intros _. by exists s.
  - destruct s as [|x s]; [done |]. cbn [String.prefix].
    destruct (ascii_dec y x) as [-> |]; [| done].
    intros (b & ->)%IH. by exists b.
Qed.

Lemma includes_split (s n : string) :
  includes s n = true → ∃ a b, s = a +:+ n +:+ b.
Proof.
  induction s as [|x s IH].
  - cbn [includes]. rewrite orb_false_r. intros (b & Hb)%prefix_split. by exists "", b.
  - cbn [includes]. intros [H | H]%orb_true_iff.
    + apply prefix_split in H as (b & Hb). by exists "", b.
    + destruct (IH H) as (a & b & ->). by exists (String x a), b.
Qed.

Lemma includes_trans (s m n : string) :
  includes s m = true → includes m n = true → includes s n = true.
Proof.
  intros (a & b & ->)%includes_split (c & d & ->)%includes_split.
  apply includes_app_r, includes_app_l, includes_app_r, includes_app_l, includes_self.
Qed.

Lemma order_document_trim (t : OrderLabels) (dir code name productHTML phone
    city address qty status statusLabel date scriptHTML today : string) :
  trim (template_open
        +:+ order_document t dir code name productHTML phone city address qty
              status statusLabel date scriptHTML today
        +:+ document_close)
  = order_document t dir code name productHTML phone city address qty
      status statusLabel date scriptHTML today.
Proof.
  apply trim_template.
  - do 2 eexists. split; reflexivity.
  - unfold order_document. ends_anchor_tac.
  - reflexivity.
Qed.

Lemma outcome_ok_inj {A : Type} (a b : A) : @Ok A a = Ok b → a = b.
Proof. by intros [= ->]. Qed.

Lemma order_row_shows (label : string) (v : Value) (row : string) :
  order_row label v = Ok row → truthy v = true →
  ∃ text, to_string v = Ok text ∧ includes row text = true.
Proof.
  unfold order_row. intros H Hv. rewrite Hv in H.
  apply outcome_bind_inv in H as (text & Htext & H).
  apply outcome_ok_inj in H as <-.
  exists text. split; [done |]. occurs_in_template.
Qed.

Lemma script_block_shows (title : string) (v : Value) (block : string) :
  script_block title v = Ok block → truthy v = true →
  ∃ text, to_string v = Ok text ∧ includes block text = true.
Proof.
  unfold script_block. intros H Hv. rewrite Hv in H.
  apply outcome_bind_inv in H as (text & Htext & H).
  apply outcome_ok_inj in H as <-.
  exists text. split; [done |]. occurs_in_template.
Qed.

Lemma product_block_shows (title : string) (product : Obj) (block : string) :
  product_block title (Some product) = Ok block →
  ∃ pname image,
    to_string (get product "name") = Ok pname
    ∧ to_string (get product "imageUrl") = Ok image
    ∧ includes block pname = true ∧ includes block image = true.
Proof.
  unfold product_block. intros H.
  apply outcome_bind_inv in H as (image & Himage & H).
  apply outcome_bind_inv in H as (pname & Hpname & H).
  apply outcome_bind_inv in H as (price & _ & H).
  apply outcome_ok_inj in H as <-.
  exists pname, image. repeat split; try done; occurs_in_template.
Qed.

(** X17: the label of a status in the order document.  Each of the four
    statuses of the schema has a label of its own, not empty, in each of
    the three languages.  Any other status text is shown as it is stored,
    unless it names a member every object inherits (constructor,
    toString, ...), in which case the text of that native function is
    shown in its place. *)
Theorem status_label_known_or_raw (lang : Language) (s : string) :
  (s ∈ order_statuses →
   ∃ l : string,
     o_statuses (order_labels lang) !! s = Some (VStr l) ∧ l ≠ ""
     ∧ status_label (o_statuses (order_labels lang)) (VStr s) = Ok l)
  ∧ (s ∉ order_statuses →
     status_label (o_statuses (order_labels lang)) (VStr s)
     = Ok (if inherited s then builtin_text s else s)).
Proof.
  split.
  - unfold order_statuses. rewrite !elem_of_cons, elem_of_nil.
    intros [-> | [-> | [-> | [-> | []]]]]; destruct lang;
      (eexists; split; [vm_compute; reflexivity |];
       split; [discriminate | vm_compute; reflexivity]).
  - unfold order_statuses. rewrite !not_elem_of_cons.
    intros (? & ? & ? & ? & _).
    assert (Hnone : o_statuses (order_labels lang) !! s = None).
    { destruct lang; cbn [order_labels o_statuses];
        by rewrite !lookup_insert_ne, lookup_empty by done. }
    unfold status_label. cbn [to_string mbind outcome_bind].
    unfold get_computed. rewrite Hnone.
    by destruct (inherited s).
Qed.

Lemma js_or_idem (a b : Value) : js_or (js_or a b) b = js_or a b.
Proof.
  unfold js_or. destruct (truthy a) eqn:Ha; [by rewrite Ha |].
  by destruct (truthy b).
Qed.

Lemma order_row_or_null (label : string) (v : Value) :
  order_row label (js_or v VNull) = order_row label v.
Proof.
  unfold js_or, order_row. destruct (truthy v) eqn:E; [by rewrite E | done].
Qed.

Lemma script_block_converts (title : string) (v : Value) :
  succeeds (to_string v) = true → succeeds (script_block title v) = true.
Proof.
  unfold script_block. destruct (truthy v); [| done].
  by destruct (to_string v).
Qed.

Lemma optional_line_order_row (label label' : string) (v : Value) (x : string) :
  optional_line label v = Ok x → succeeds (order_row label' v) = true.
Proof.
  unfold optional_line, order_row. destruct (truthy v); [| done].
  by destruct (to_string v).
Qed.

Lemma optional_line_price_line (label : string) (v : Value) (x : string) :
  optional_line label v = Ok x → succeeds (price_line v) = true.
Proof.
  unfold optional_line, price_line. destruct (truthy v); [| done].
  by destruct (to_string v).
Qed.

Lemma succeeds_bind {A B : Type} (m : Outcome A) (f : A → Outcome B) :
  succeeds (m ≫= f)
  = match m with
    | Ok a => succeeds (f a)
    | Throw _ => false
    end.
Proof. by destruct m. Qed.

Lemma succeeds_inv {A : Type} (m : Outcome A) :
  succeeds m = true → ∃ a, m = Ok a.
Proof. destruct m as [a|]; [by exists a | done]. Qed.

(** What a script that was generated tells about its inputs. *)
Lemma script_ar_converts (product : Obj) (customer : Customer) (s : string) :
  script_ar product customer = Ok s →
  succeeds (to_string (customerName customer)) = true
  ∧ succeeds (to_string (get product "name")) = true
  ∧ succeeds (to_string (quantity customer)) = true
  ∧ succeeds (price_line (get product "price")) = true
  ∧ (∀ l, succeeds (order_row l (customerCity customer)) = true)
  ∧ (∀ l, succeeds (order_row l (customerAddress customer)) = true).
Proof.
  unfold script_ar. intros H.
  apply outcome_bind_inv in H as (name & Hname & H).
  apply outcome_bind_inv in H as (pname & Hpname & H).
  apply outcome_bind_inv in H as (qty & Hqty & H).
  apply outcome_bind_inv in H as (price & Hprice & H).
  apply outcome_bind_inv in H as (description & _ & H).
  apply outcome_bind_inv in H as (desc & _ & H).
  apply outcome_bind_inv in H as (city & Hcity & H).
  apply outcome_bind_inv in H as (address & Haddress & _).
  rewrite Hname, Hpname, Hqty. do 3 (split; [done |]).
  split; [by eapply optional_line_price_line |].
  split; intros l; by eapply optional_line_order_row.
Qed.

Lemma generateConfirmationScript_converts (product : Obj) (customer : Customer)
    (lang cs : Value) :
  generateConfirmationScript product customer lang = Ok cs →
  succeeds (to_string cs) = true
  ∧ ∃ ar, script_ar product customer = Ok ar.
Proof.
  unfold generateConfirmationScript. intros H.
  apply outcome_bind_inv in H as (ar & Har & H).
  apply outcome_bind_inv in H as (en & _ & H).
  apply outcome_bind_inv in H as (fr & _ & H).
  apply outcome_bind_inv in H as (key & _ & H).
  apply outcome_ok_inj in H as <-.
  split; [| by exists ar].
  unfold get_computed.
  destruct (decide (key = "fr")) as [-> | ?]; [by rewrite lookup_insert_eq |].
  rewrite lookup_insert_ne by done.
  destruct (decide (key = "en")) as [-> | ?]; [by rewrite lookup_insert_eq |].
  rewrite lookup_insert_ne by done.
  destruct (decide (key = "ar")) as [-> | ?]; [by rewrite lookup_insert_eq |].
  rewrite lookup_insert_ne, lookup_empty by done.
  by destruct (inherited key).
Qed.

Lemma createOrder_fields (st : Store) (id : string) (now : Z) (input : Obj) :
  let order := snd (createOrder st id now input) in
  products (fst (createOrder st id now input)) = products st
  ∧ get order "productId" = get input "productId"
  ∧ get order "customerName" = get input "customerName"
  ∧ get order "customerPhone" = get input "customerPhone"
  ∧ get order "customerCity" = js_or (get input "customerCity") VNull
  ∧ get order "customerAddress" = js_or (get input "customerAddress") VNull
  ∧ get order "createdAt" = VNum now.
Proof. simpl. split; [done |]. by read_literal. Qed.

Lemma status_label_pending (lang : Language) :
  succeeds (status_label (o_statuses (order_labels lang)) (VStr "pending")) = true.
Proof. by destruct lang. Qed.

Section OrderDocumentProperties.

Variable date_parse : string → option Z.
Variable locale_date : Z → string → string.

(** X16: a document that the order-document generator returns shows the
    order as it is stored: it contains, as they convert to text, the
    customer's name, the customer's telephone number, the quantity, the
    label of the status and the date of generation; the city, the address
    and the stored confirmation script whenever these are not empty; and
    the name and the image address of the product when the product is
    still stored. *)
Theorem orderDocument_shows_order (order : Obj) (product : option Obj)
    (lang : Language) (now : Z) (doc : string) :
  generateOrderPDF date_parse locale_date order product lang now = Ok doc →
  (∃ name phone qty label : string,
     to_string (get order "customerName") = Ok name
     ∧ to_string (get order "customerPhone") = Ok phone
     ∧ to_string (get order "quantity") = Ok qty
     ∧ status_label (o_statuses (order_labels lang)) (get order "status") = Ok label
     ∧ includes doc name = true ∧ includes doc phone = true
     ∧ includes doc qty = true ∧ includes doc label = true)
  ∧ includes doc (locale_date now (locale lang)) = true
  ∧ (∀ k : string, k ∈ ["customerCity"; "customerAddress"; "confirmationScript"] →
     truthy (get order k) = true →
     ∃ text, to_string (get order k) = Ok text ∧ includes doc text = true)
  ∧ (∀ p : Obj, product = Some p →
     ∃ pname image,
       to_string (get p "name") = Ok pname
       ∧ to_string (get p "imageUrl") = Ok image
       ∧ includes doc pname = true ∧ includes doc image = true).
Proof.
  unfold generateOrderPDF. cbn zeta. intros H.
  apply outcome_bind_inv in H as (name & Hname & H).
  apply outcome_bind_inv in H as (productHTML & Hproduct & H).
  apply outcome_bind_inv in H as (phone & Hphone & H).
  apply outcome_bind_inv in H as (city & Hcity & H).
  apply outcome_bind_inv in H as (address & Haddress & H).
  apply outcome_bind_inv in H as (qty & Hqty & H).
  apply outcome_bind_inv in H as (status & Hstatus & H).
  apply outcome_bind_inv in H as (label & Hlabel & H).
  apply outcome_bind_inv in H as (date & Hdate & H).
  apply outcome_bind_inv in H as (scriptHTML & Hscript & H).
  rewrite order_document_trim in H. injection H as <-.
  split; [| split; [| split]].
  - exists name, phone, qty, label.
    do 4 (split; [done |]).
    unfold order_document. repeat split; occurs_in_template.
  - unfold order_document. occurs_in_template.
  - intros k Hk Htruthy.
    rewrite !elem_of_cons, elem_of_nil in Hk.
    destruct Hk as [-> | [-> | [-> | []]]].
    + destruct (order_row_shows _ _ _ Hcity Htruthy) as (text & Htext & Hin).
      exists text. split; [done |].
      apply (includes_trans _ city); [| done].
      unfold order_document. occurs_in_template.
    + destruct (order_row_shows _ _ _ Haddress Htruthy) as (text & Htext & Hin).
      exists text. split; [done |].
      apply (includes_trans _ address); [| done].
      unfold order_document. occurs_in_template.
    + destruct (script_block_shows _ _ _ Hscript Htruthy) as (text & Htext & Hin).
      exists text. split; [done |].
      apply (includes_trans _ scriptHTML); [| done].
      unfold order_document. occurs_in_template.
  - intros p ->.
    destruct (product_block_shows _ _ _ Hproduct) as (pname & image & ? & ? & Hn & Hi).
    exists pname, image. do 2 (split; [done |]).
    split; (eapply includes_trans; [| eassumption]);
      unfold order_document; occurs_in_template.
Qed.

(** The product enters the document through its block only. *)
Lemma generateOrderPDF_product_block (order : Obj) (product : option Obj)
    (lang : Language) (now : Z) :
  succeeds (generateOrderPDF date_parse locale_date order product lang now)
  = succeeds (generateOrderPDF date_parse locale_date order None lang now)
    && succeeds (product_block (o_product (order_labels lang)) product).
Proof.
  destruct product as [product|]; [| by rewrite andb_true_r].
  unfold generateOrderPDF. cbn zeta.
  rewrite !succeeds_bind.
  destruct (to_string (get order "customerName")) as [name|]; [| reflexivity].
  rewrite !succeeds_bind.
  destruct (product_block _ (Some product)) as [block|];
    cbn [product_block succeeds]; [| apply eq_sym, andb_false_r].
  rewrite andb_true_r, !succeeds_bind.
  destruct (to_string (get order "customerPhone")); [| reflexivity].
  rewrite !succeeds_bind.
  destruct (order_row _ (get order "customerCity")); [| reflexivity].
  rewrite !succeeds_bind.
  destruct (order_row _ (get order "customerAddress")); [| reflexivity].
  rewrite !succeeds_bind.
  destruct (to_string (get order "quantity")); [| reflexivity].
  rewrite !succeeds_bind.
  destruct (to_string (get order "status")); [| reflexivity].
  rewrite !succeeds_bind.
  destruct (status_label _ _); [| reflexivity].
  rewrite !succeeds_bind.
  destruct (date_text _ _ _); [| reflexivity].
  rewrite !succeeds_bind.
  destruct (script_block _ _); cbn [succeeds]; reflexivity.
Qed.

(** X18: deleting a product takes no order's document away.  An order
    that is stored, and for which the generator returns a document with
    the product looked up in the store, is still stored after any
    product is deleted, and the generator still returns a document for
    it, with or without the product. *)
Theorem orderDocument_survives_deleteProduct (st : Store) (oid pid : string)
    (order : Obj) (lang : Language) (now : Z) :
  getOrder st oid = Some order →
  succeeds (generateOrderPDF date_parse locale_date order
              (lookupProduct st (get order "productId")) lang now) = true →
  getOrder (fst (deleteProduct st pid)) oid = Some order
  ∧ succeeds (generateOrderPDF date_parse locale_date order
                (lookupProduct (fst (deleteProduct st pid))
                   (get order "productId")) lang now) = true.
Proof.
  intros Horder Hdoc. split; [done |].
  rewrite generateOrderPDF_product_block in Hdoc.
  apply andb_true_iff in Hdoc as [Hnone Hblock].
  rewrite generateOrderPDF_product_block, Hnone. cbn [andb].
  unfold lookupProduct in *. destruct (get order "productId") as [| | | |a| | |];
    try done.
  unfold getProduct, deleteProduct. cbn [JsMap.delete fst products].
  destruct (decide (pid = a)) as [-> | Hne].
  - by rewrite JsMap_get_remove_eq.
  - by rewrite JsMap_get_remove_ne.
Qed.

(** X19: for an order that the order route has just created, the product
    is still found in the store, and in each of the three languages of
    the declared type (ar, en, fr) the order-document generator returns a
    document for the order and that product exactly when two values
    convert to text, neither of which the route converts: the customer's
    telephone number and the image address of the product. *)
Theorem orderDocument_of_new_order (st st' : Store) (id : string) (now : Z)
    (body order : Obj) (lang : Language) (now' : Z) :
  postOrder st id now body = (st', Json (VObj order)) →
  ∃ product : Obj,
    lookupProduct st' (get order "productId") = Some product
    ∧ succeeds (generateOrderPDF date_parse locale_date order (Some product)
                  lang now')
      = succeeds (to_string (get body "customerPhone"))
        && succeeds (to_string (get product "imageUrl")).
Proof.
  unfold postOrder. intros H.
  destruct (negb (truthy (get body "productId"))
            || negb (truthy (get body "customerName"))
            || negb (truthy (get body "customerPhone"))); [done |].
  destruct (lookupProduct st (get body "productId")) as [product|] eqn:Hp; [| done].
  destruct (generateConfirmationScript product _ _) as [cs|] eqn:Hcs; [| done].
  apply generateConfirmationScript_converts in Hcs as (Hcs & ar & Har).
  apply script_ar_converts in Har as (Hname & Hpname & Hqty & Hprice & Hcity & Haddr).
  cbn [customerName quantity customerCity customerAddress] in *.
  match type of H with
  | (let (_, _) := createOrder ?s ?i ?n ?input in _) = _ =>
      pose proof (createOrder_result s i n input) as (_ & Hs & Hq & _ & Hc);
      pose proof (createOrder_fields s i n input)
        as (Hst & Hpid & Hn & Hph & Hci & Had & Hat);
      destruct (createOrder s i n input) as [st1 order1] eqn:Hco
  end.
  cbn [fst snd] in *. injection H as <- <-.
  revert Hs Hq Hc Hpid Hn Hph Hci Had. read_literal.
  intros Hs Hq Hc Hpid Hn Hph Hci Had.
  exists product. split.
  { rewrite Hpid. unfold lookupProduct, getProduct in *. by rewrite Hst. }
  unfold generateOrderPDF. cbn zeta.
  rewrite Hn, Hph, Hci, Had, Hq, Hs, Hc, Hat, js_or_idem, !order_row_or_null.
  apply succeeds_inv in Hname as (name & ->). cbn [mbind outcome_bind].
  rewrite succeeds_bind. unfold product_block at 1.
  destruct (to_string (get product "imageUrl")) as [image|];
    cbn [mbind outcome_bind succeeds]; [| by rewrite andb_false_r].
  rewrite andb_true_r.
  apply succeeds_inv in Hpname as (pname & ->).
  apply succeeds_inv in Hprice as (price & ->). cbn [mbind outcome_bind].
  rewrite succeeds_bind.
  destruct (to_string (get body "customerPhone")) as [phone|]; [| done].
  destruct (succeeds_inv _ (Hcity (o_city (order_labels lang)))) as (city & ->).
  destruct (succeeds_inv _ (Haddr (o_address (order_labels lang)))) as (address & ->).
  apply succeeds_inv in Hqty as (qty & ->).
  destruct (succeeds_inv _ (status_label_pending lang)) as (label & Hlabel).
  assert (Hpending : js_or (VStr "pending") (VStr "pending") = VStr "pending") by done.
  rewrite Hpending, Hlabel.
  cbn [mbind outcome_bind to_string date_text time_value].
  destruct (succeeds_inv _ (script_block_converts (o_script (order_labels lang))
                              (js_or cs VNull)
                              ltac:(unfold js_or; by destruct (truthy cs))))
    as (block & ->).
  reflexivity.
Qed.

End OrderDocumentProperties.

Lemma orderDocument_shows_order_witness :
  ∃ doc : string,
    generateOrderPDF (λ _, None) (λ ms _, pretty ms) ali_order (Some chair) Fr 5000
    = Ok doc
    ∧ includes doc (pretty 5000) = true.
Proof.
  destruct (succeeds_inv
              (generateOrderPDF (λ _, None) (λ ms _, pretty ms) ali_order
                 (Some chair) Fr 5000)
              ltac:(vm_compute; reflexivity)) as [doc E].
  exists doc. split; [exact E |].
  exact (proj1 (proj2 (orderDocument_shows_order (λ _, None) (λ ms _, pretty ms)
                         ali_order (Some chair) Fr 5000 doc E))).
Defined.

Lemma orderDocument_survives_deleteProduct_witness :
  getOrder ali_store "o1" = Some ali_order
  ∧ succeeds (generateOrderPDF (λ _, None) (λ ms _, pretty ms) ali_order
                (lookupProduct ali_store (get ali_order "productId")) En 5000) = true
  ∧ succeeds (generateOrderPDF (λ _, None) (λ ms _, pretty ms) ali_order
                (lookupProduct (fst (deleteProduct ali_store "p1"))
                   (get ali_order "productId")) En 5000) = true.
Proof.
  assert (H1 : getOrder ali_store "o1" = Some ali_order) by reflexivity.
  assert (H2 : succeeds (generateOrderPDF (λ _, None) (λ ms _, pretty ms) ali_order
                           (lookupProduct ali_store (get ali_order "productId"))
                           En 5000) = true)
    by (vm_compute; reflexivity).
  split; [exact H1 |]. split; [exact H2 |].
  exact (proj2 (orderDocument_survives_deleteProduct (λ _, None) (λ ms _, pretty ms)
                  ali_store "o1" "p1" ali_order En 5000 H1 H2)).
Defined.

Lemma orderDocument_of_new_order_witness :
  ∃ (st' : Store) (order product : Obj),
    postOrder chair_store "o1" 2000 (order_request (VStr "en"))
    = (st', Json (VObj order))
    ∧ lookupProduct st' (get order "productId") = Some product
    ∧ succeeds (generateOrderPDF (λ _, None) (λ ms _, pretty ms) order
                  (Some product) Fr 5000)
      = succeeds (to_string (get (order_request (VStr "en")) "customerPhone"))
        && succeeds (to_string (get product "imageUrl")).
Proof.
  destruct (answered_inv
              (postOrder chair_store "o1" 2000 (order_request (VStr "en")))
              ltac:(vm_compute; reflexivity)) as (st' & order & E).
  destruct (orderDocument_of_new_order (λ _, None) (λ ms _, pretty ms)
              chair_store st' "o1" 2000 (order_request (VStr "en")) order Fr 5000 E)
    as (product & Hp & Hdoc).
  exists st', order, product. split; [exact E |]. split; [exact Hp | exact Hdoc].
Defined.

(** ** What the product document shows *)

Lemma list_items_shows (l : list Value) (html : string) :
  list_items (VArr l) = Ok html →
  ∀ x, x ∈ l →
    ∃ s, to_string x = Ok s ∧ includes html ("<li>" +:+ s +:+ "</li>") = true.
Proof.
  cbn [list_items]. revert html. induction l as [|y l IH]; intros html H x Hx.
  - by apply elem_of_nil in Hx.
  - apply outcome_bind_inv in H as (s & Hs & H).
    apply outcome_bind_inv in H as (r & Hr & H).
    apply outcome_ok_inj in H as <-.
    apply elem_of_cons in Hx as [-> | Hx].
    + exists s. split; [done |].
      change ("<li>" +:+ s +:+ "</li>" +:+ r)
        with ("<li>" +:+ (s +:+ ("</li>" +:+ r))).
      change ("<li>" +:+ s +:+ "</li>") with ("<li>" +:+ (s +:+ "</li>")).
      rewrite <- (app_assoc_s s "</li>" r), <- (app_assoc_s "<li>" _ r).
      apply includes_app_l, includes_self.
    + destruct (IH r Hr x Hx) as (s' & Hs' & Hin).
      exists s'. split; [done |].
      do 3 apply includes_app_r. exact Hin.
Qed.

Section ProductDocumentContents.

Variable string_gt_zero : string → bool.

Lemma list_section_shows (title : string) (v : Value) (lang : Language)
    (items : list Value) (sec : string) :
  list_section string_gt_zero title v lang = Ok sec →
  lang_entry v (lang_code lang) = VArr items →
  ∀ x, x ∈ items →
    ∃ s, to_string x = Ok s ∧ includes sec ("<li>" +:+ s +:+ "</li>") = true.
Proof.
  unfold list_section. cbn zeta. intros H Hv x Hx. rewrite Hv in H.
  cbn [optional_length js_gt_zero mbind outcome_bind] in H.
  destruct items as [|y items]; [by apply elem_of_nil in Hx |].
  replace (0 <? Z.of_nat (length (y :: items))) with true in H
    by (symmetry; apply Z.ltb_lt; cbn [length]; lia).
  apply outcome_bind_inv in H as (html & Hhtml & H).
  apply outcome_ok_inj in H as <-.
  destruct (list_items_shows _ _ Hhtml x Hx) as (s & Hs & Hin).
  exists s. split; [done |].
  apply (includes_trans _ html); [| done]. occurs_in_template.
Qed.

(** X20: a document that the product-document generator returns shows
    the product: it contains the product's name, its description in the
    language of the document and the date of generation; and when the
    benefits (or the features) of that language are an array, every entry
    of the array appears in the document as a list item. *)
Theorem productDocument_shows_product (product : Obj) (lang : Language)
    (today doc : string) :
  generateProductPDF string_gt_zero product lang today = Ok doc →
  (∃ pname desc : string,
     to_string (get product "name") = Ok pname
     ∧ get_prop (get product "descriptions") (lang_code lang) ≫= to_string = Ok desc
     ∧ includes doc pname = true ∧ includes doc desc = true)
  ∧ includes doc today = true
  ∧ (∀ (k : string) (items : list Value),
       k ∈ ["benefits"; "features"] →
       lang_entry (get product k) (lang_code lang) = VArr items →
       ∀ x, x ∈ items →
         ∃ s, to_string x = Ok s
              ∧ includes doc ("<li>" +:+ s +:+ "</li>") = true).
Proof.
  unfold generateProductPDF. cbn zeta. intros H.
  apply outcome_bind_inv in H as (benefitsHTML & Hb & H).
  apply outcome_bind_inv in H as (featuresHTML & Hf & H).
  apply outcome_bind_inv in H as (pname & Hpname & H).
  apply outcome_bind_inv in H as (image & _ & H).
  apply outcome_bind_inv in H as (price & _ & H).
  apply outcome_bind_inv in H as (category & _ & H).
  apply outcome_bind_inv in H as (description & Hd & H).
  apply outcome_bind_inv in H as (desc & Hdesc & H).
  rewrite document_trim in H. apply outcome_ok_inj in H as <-.
  split; [| split].
  - exists pname, desc. rewrite Hd. cbn [mbind outcome_bind].
    do 2 (split; [done |]).
    split; apply includes_app_l; unfold document_head; occurs_in_template.
  - apply includes_app_r. cbn [append]. apply includes_app_r with (a := String newline "").
    unfold document_tail. occurs_in_template.
  - intros k items Hk Hitems x Hx.
    rewrite !elem_of_cons, elem_of_nil in Hk. destruct Hk as [-> | [-> | []]].
    + destruct (list_section_shows _ _ _ _ _ Hb Hitems x Hx) as (s & Hs & Hin).
      exists s. split; [done |].
      apply (includes_trans _ benefitsHTML); [| done].
      apply includes_app_l. unfold document_head. occurs_in_template.
    + destruct (list_section_shows _ _ _ _ _ Hf Hitems x Hx) as (s & Hs & Hin).
      exists s. split; [done |].
      apply (includes_trans _ featuresHTML); [| done].
      apply includes_app_l. unfold document_head. occurs_in_template.
Qed.

End ProductDocumentContents.

Lemma productDocument_shows_product_witness :
  ∃ doc : string,
    generateProductPDF (λ _, false) chair En "1/2/2025" = Ok doc
    ∧ includes doc "1/2/2025" = true.
Proof.
  destruct (succeeds_inv (generateProductPDF (λ _, false) chair En "1/2/2025")
              ltac:(vm_compute; reflexivity)) as [doc E].
  exists doc. split; [exact E |].
  exact (proj1 (proj2 (productDocument_shows_product (λ _, false) chair En
                         "1/2/2025" doc E))).
Defined.
